(** * tf_agents/utils/eager_utils.py: graph/eager compatibility helpers

    A shallow embedding of [has_self_cls_arg], [is_unbound], [Future],
    [future_in_eager_mode], [create_train_step] and [np_function].

    The tensor library is an opaque collaborator.  Its objects are [atom]s,
    its state is a [world], and the operations the module calls on it are the
    fields of the classes [PyHost] and [NumpyHost].  Python objects the module itself builds
    (tuples and lists of arguments, [None], the default [lambda x: x]) are
    constructors of [value]. *)

From Stdlib Require Import Ascii.
From stdpp Require Import gmap strings list fin_maps.

Set Default Proof Using "Type".
#[local] Set Warnings "-register-all".

(** ** Host types *)

Class HostTypes := {
  world : Type;                 (* state of the framework: variables, graph, optimizer slots *)
  atom : Type;                  (* an object of the framework: tensor, ndarray, dtype, variable, ... *)
  host_exn : Type;              (* an exception raised outside this module *)
  atom_eq_dec :: EqDecision atom;
  atom_countable :: Countable atom;
}.

Section Model.
Context `{HT : HostTypes}.

(** ** Python values *)

Inductive seq_kind := KTuple | KList.

Inductive value :=
| PyNone
| PyBool (b : bool)
| PyInt (z : Z)
| PyStr (s : string)
| Atom (a : atom)
| Seq (k : seq_kind) (xs : list value)
| Lambda_identity.              (* [lambda x: x], the default [total_loss_fn] *)

Definition tuple (xs : list value) : value := Seq KTuple xs.

(** A keyword dictionary. *)
Abbreviation kwdict := (gmap string value).

(** ** Exceptions *)

Inductive exn_class := TypeError | ValueError.

Inductive exn :=
| Own (c : exn_class) (msg : string)   (* raised by a [raise] statement of this module *)
| Host (e : host_exn).                 (* raised by a callee *)

Inductive outcome (E A : Type) :=
| Return (a : A)
| Raise (e : E).
Global Arguments Return {E A} a.
Global Arguments Raise {E A} e.

(** ** State

    [dicts] is the store of dictionary objects, addressed by reference, so
    that [copy.copy] and the in-place [pop] and [update] are visible.
    [memo] holds the [memo] attribute that [np_function] attaches to a
    function object, keyed by the function's identity.  [trace] records, in
    order, every call that leaves the module, to a user function ([ECall])
    or to the framework ([EHost]), and every miss of a memo ([EMiss]), which
    is where an inference of output dtypes starts. *)

Inductive event :=
| ECall (fid : nat) (args : list value) (kwargs : kwdict)
| EHost (op : string) (args : list value) (kwargs : kwdict)
| EMiss (fid : nat) (input_dtypes : list atom).

Record state := State {
  host : world;
  trace : list event;
  dicts : gmap nat kwdict;
  memo : gmap nat (gmap (list atom) value);
}.

Definition M (E A : Type) : Type := state -> outcome E A * state.

Definition ret {E A} (a : A) : M E A := fun s => (Return a, s).
Definition raise {E A} (e : E) : M E A := fun s => (Raise e, s).
Definition bind {E A B} (m : M E A) (k : A -> M E B) : M E B :=
  fun s => match m s with
           | (Return a, s') => k a s'
           | (Raise e, s') => (Raise e, s')
           end.

Notation "x <- m ;; k" := (bind m (fun x => k))
  (at level 100, m at next level, right associativity).
Notation "m ;;; k" := (bind m (fun _ => k))
  (at level 100, right associativity).

(** A callee's exception seen from the module. *)
Definition from_callee {A} (m : M host_exn A) : M exn A :=
  fun s => match m s with
           | (Return a, s') => (Return a, s')
           | (Raise e, s') => (Raise (Host e), s')
           end.

Definition of_outcome {E A} (o : outcome E A) : M E A := fun s => (o, s).

Definition log {E} (e : event) : M E unit :=
  fun s => (Return tt, State (host s) (trace s ++ [e]) (dicts s) (memo s)).

Definition get_host {E} : M E world := fun s => (Return (host s), s).

(** Run a framework operation on the framework's state. *)
Definition on_host {E A} (f : world -> outcome E A * world) : M E A :=
  fun s => let '(o, w) := f (host s) in
           (o, State w (trace s) (dicts s) (memo s)).

(** *** Dictionary objects *)

Definition dict_new {E} (d : kwdict) : M E nat :=
  fun s => let l := fresh (dom (dicts s)) in
           (Return l, State (host s) (trace s) (<[l := d]> (dicts s)) (memo s)).

Definition dict_read {E} (l : nat) : M E kwdict :=
  fun s => (Return (dicts s !!! l), s).

Definition dict_write {E} (l : nat) (d : kwdict) : M E unit :=
  fun s => (Return tt, State (host s) (trace s) (<[l := d]> (dicts s)) (memo s)).

(** [copy.copy(d)]: a new dictionary object with the same items. *)
Definition copy_copy {E} (l : nat) : M E nat :=
  d <- dict_read l ;; dict_new d.

(** [d.pop(key, None)] *)
Definition dict_pop {E} (l : nat) (key : string) : M E unit :=
  d <- dict_read l ;; dict_write l (delete key d).

(** [d.update(other)]: the items of [other] win. *)
Definition dict_update {E} (l : nat) (other : kwdict) : M E unit :=
  d <- dict_read l ;; dict_write l (other ∪ d).

Fixpoint for_each {E A} (xs : list A) (body : A -> M E unit) : M E unit :=
  match xs with
  | [] => ret tt
  | x :: xs' => body x ;;; for_each xs' body
  end.

(** ** Callables

    What the module observes of a callable object: the answers of [inspect],
    its [__self__] attribute, and what calling it does. *)

Class PyCallable (F : Type) := {
  is_staticmethod : F -> bool;                       (* isinstance(f, staticmethod) *)
  ismethod : F -> bool;                              (* inspect.ismethod(f) *)
  is_classmethod : F -> bool;                        (* isinstance(f, classmethod) *)
  getargspec_args : F -> outcome host_exn (list string);      (* inspect.getargspec(f).args *)
  getfullargspec_args : F -> outcome host_exn (list string);  (* inspect.getfullargspec(f).args *)
  signature_parameters : F -> outcome host_exn (list string); (* list(inspect.signature(f).parameters) *)
  dunder_self : F -> option value;                   (* f.__self__ when hasattr(f, '__self__') *)
  apply : F -> list value -> kwdict -> M host_exn value;      (* calling f with these arguments *)
}.

(** A function object defined outside the module.  Its body acts on the
    framework's state only: a callee receives its keyword arguments in a
    dictionary of its own and holds no reference to the module's objects. *)
Record callable := Callable {
  fn_id : nat;
  fn_is_staticmethod : bool;
  fn_ismethod : bool;
  fn_is_classmethod : bool;
  fn_getargspec : outcome host_exn (list string);
  fn_getfullargspec : outcome host_exn (list string);
  fn_signature : outcome host_exn (list string);
  fn_self : option value;
  fn_body : list value -> kwdict -> world -> outcome host_exn value * world;
}.

Definition call (c : callable) (args : list value) (kwargs : kwdict) : M host_exn value :=
  log (ECall (fn_id c) args kwargs) ;;;
  on_host (fn_body c args kwargs).

Global Instance callable_PyCallable : PyCallable callable := {
  is_staticmethod := fn_is_staticmethod;
  ismethod := fn_ismethod;
  is_classmethod := fn_is_classmethod;
  getargspec_args := fn_getargspec;
  getfullargspec_args := fn_getfullargspec;
  signature_parameters := fn_signature;
  dunder_self := fn_self;
  apply := call;
}.

(** ** The interpreter and the execution mode *)

Class PyHost := {
  PY2 : bool;                               (* six.PY2 *)
  truthy_atom : atom -> bool;               (* bool(x) *)
  atom_callable : atom -> option callable;  (* the function behind a callable object *)
  executing_eagerly : world -> bool;        (* tf.executing_eagerly() *)
  is_Future_instance : value -> bool;       (* isinstance(x, Future) *)
  interp_error : string -> host_exn;        (* an exception of the interpreter itself, by class name *)
  takes_attributes : callable -> bool;      (* the object has a [__dict__] for new attributes *)
  (* a function or method of the framework, by name *)
  host_call : string -> list value -> kwdict -> world -> outcome host_exn value * world;
}.

Context `{PH : PyHost}.

(** [bool(v)] *)
Definition truthy (v : value) : bool :=
  match v with
  | PyNone => false
  | PyBool b => b
  | PyInt z => negb (bool_decide (z = 0%Z))
  | PyStr s => negb (bool_decide (s = ""%string))
  | Atom a => truthy_atom a
  | Seq _ xs => negb (bool_decide (xs = []))
  | Lambda_identity => true
  end.

(** The default [total_loss_fn]: [lambda x: x]. *)
Definition lambda_identity_body
    (args : list value) (kwargs : kwdict) (w : world)
  : outcome host_exn value * world :=
  match args with
  | [x] => if bool_decide (kwargs = ∅) then (Return x, w) else (Raise (interp_error "TypeError"), w)
  | _ => (Raise (interp_error "TypeError"), w)
  end.

(** ** has_self_cls_arg, is_unbound *)

Definition first_is_self_or_cls (arg_names : list string) : bool :=
  match arg_names with
  | [] => false
  | n :: _ => bool_decide (n = "self"%string) || bool_decide (n = "cls"%string)
  end.

Definition has_self_cls_arg {F} `{PyCallable F} (func_or_method : F)
  : outcome host_exn bool :=
  if is_staticmethod func_or_method then Return false
  else if ismethod func_or_method then Return true
  else if is_classmethod func_or_method then Return true
  else
    match (if PY2 then getargspec_args func_or_method
           else signature_parameters func_or_method) with
    | Raise e => Raise e
    | Return arg_names => Return (first_is_self_or_cls arg_names)
    end.

Definition is_unbound {F} `{PyCallable F} (method : F) : bool :=
  negb (match dunder_self method with
        | Some v => truthy v
        | None => false
        end).

(** ** Future *)

Record Future (F : Type) := mkFuture {
  _func_or_method : F;
  _args : list value;
  _kwargs : nat;                 (* reference to a dictionary object *)
  _arg_names : list string;
  _self : option value;
}.
Global Arguments mkFuture {F}.
Global Arguments _func_or_method {F}.
Global Arguments _args {F}.
Global Arguments _kwargs {F}.
Global Arguments _arg_names {F}.
Global Arguments _self {F}.

Definition unbound_msg : string :=
  "func_or_method is unbond, but not class/instance provided.".

(** [Future.__init__(self, func_or_method, *args, **kwargs)]; [kwargs] is the
    dictionary object bound to the parameter of that name. *)
Definition Future_init {F} `{PyCallable F} (func_or_method : F)
    (args : list value) (kwargs : nat) : M exn (Future F) :=
  kw <- copy_copy kwargs ;;
  arg_names <- from_callee (of_outcome
      (if PY2 then getargspec_args func_or_method
       else getfullargspec_args func_or_method)) ;;
  has_self <- from_callee (of_outcome (has_self_cls_arg func_or_method)) ;;
  if (has_self : bool) then
    if is_unbound func_or_method then
      match args with
      | [] => raise (Own ValueError unbound_msg)
      | a0 :: rest =>
          ret (mkFuture func_or_method rest kw (drop 1 arg_names) (Some a0))
      end
    else ret (mkFuture func_or_method args kw (drop 1 arg_names) None)
  else ret (mkFuture func_or_method args kw arg_names None).

(** A keyword that names a parameter of [__init__] which the call has
    already bound: [self] and [func_or_method]. *)
Definition binds_twice (kwargs : kwdict) : bool :=
  bool_decide (is_Some (kwargs !! "self"%string)) ||
  bool_decide (is_Some (kwargs !! "func_or_method"%string)).

(** [Future(func_or_method, *args, **kwargs)]: the interpreter binds the
    parameters of [__init__], which fails with a TypeError when a keyword
    names [self] or [func_or_method], collects the other keyword arguments
    in a new dictionary and runs [__init__]. *)
Definition Future_new {F} `{PyCallable F} (func_or_method : F)
    (args : list value) (kwargs : kwdict) : M exn (Future F) :=
  if binds_twice kwargs then raise (Host (interp_error "TypeError"))
  else
    k <- dict_new kwargs ;;
    Future_init func_or_method args k.

(** [Future.__call__(self, *args, **kwargs)] *)
Definition Future_call {F} `{PyCallable F} (fut : Future F)
    (args : list value) (kwargs : kwdict) : M exn value :=
  let call_args := if truthy (tuple args) then args else _args fut in
  call_kwargs <- copy_copy (_kwargs fut) ;;
  for_each (take (length args) (_arg_names fut))
           (fun arg_name => dict_pop call_kwargs arg_name) ;;;
  dict_update call_kwargs kwargs ;;;
  kw <- dict_read call_kwargs ;;
  match _self fut with
  | Some self_ =>
      if truthy self_
      then from_callee (apply (_func_or_method fut) (self_ :: call_args) kw)
      else from_callee (apply (_func_or_method fut) call_args kw)
  | None => from_callee (apply (_func_or_method fut) call_args kw)
  end.

(** ** future_in_eager_mode *)

Inductive decorated_result (F : Type) :=
| Outputs (v : value)          (* graph mode: what the function returned *)
| Deferred (fut : Future F).   (* eager mode: a Future *)
Global Arguments Outputs {F}.
Global Arguments Deferred {F}.

Definition decorator {F} `{PyCallable F} (func_or_method : F)
    (args : list value) (kwargs : kwdict) : M exn (decorated_result F) :=
  w <- get_host ;;
  if executing_eagerly w then
    fut <- Future_new func_or_method args kwargs ;;
    ret (Deferred fut)
  else
    v <- from_callee (apply func_or_method args kwargs) ;;
    ret (Outputs v).

(** [callable(v)] and the function behind [v]. *)
Definition py_callable (v : value) : option callable :=
  match v with
  | Atom a => atom_callable a
  | Lambda_identity =>
      Some (Callable 0 false false false (Return ["x"%string]) (Return ["x"%string])
              (Return ["x"%string]) None lambda_identity_body)
  | _ => None
  end.

(** Calling an arbitrary object. *)
Definition py_call (v : value) (args : list value) (kwargs : kwdict) : M host_exn value :=
  match py_callable v with
  | Some c => call c args kwargs
  | None => raise (interp_error "TypeError")
  end.

(** Calling into the framework. *)
Definition tf (op : string) (args : list value) (kwargs : kwdict) : M host_exn value :=
  log (EHost op args kwargs) ;;;
  on_host (host_call op args kwargs).

Definition not_callable_msg : string := "func_or_method must be callable.".

(** [future_in_eager_mode(func_or_method)].  [tf_decorator.make_decorator]
    returns [decorator] with the metadata of [func_or_method] attached. *)
Definition future_in_eager_mode (func_or_method : value)
  : outcome exn (list value -> kwdict -> M exn (decorated_result callable)) :=
  match py_callable func_or_method with
  | None => Raise (Own TypeError not_callable_msg)
  | Some f => Return (decorator f)
  end.

(** ** nest: flatten, map_structure, pack_sequence_as

    Tuples and lists are the structures; everything else is a leaf. *)

Fixpoint flatten (v : value) : list value :=
  match v with
  | Seq _ xs =>
      (fix flatten_all (l : list value) : list value :=
         match l with
         | [] => []
         | x :: l' => flatten x ++ flatten_all l'
         end) xs
  | _ => [v]
  end.

Fixpoint map_structure {E} (f : value -> M E value) (v : value) : M E value :=
  match v with
  | Seq k xs =>
      ys <- (fix map_all (l : list value) : M E (list value) :=
               match l with
               | [] => ret []
               | x :: l' =>
                   y <- map_structure f x ;;
                   ys <- map_all l' ;;
                   ret (y :: ys)
               end) xs ;;
      ret (Seq k ys)
  | _ => f v
  end.

(** Refill [structure] with the leaves in [flat], left to right; what is
    left of [flat] is returned as well. *)
Fixpoint pack (structure : value) (flat : list value) : option (value * list value) :=
  match structure with
  | Seq k xs =>
      match (fix pack_all (l : list value) (flat : list value)
               : option (list value * list value) :=
               match l with
               | [] => Some ([], flat)
               | x :: l' =>
                   match pack x flat with
                   | None => None
                   | Some (y, flat') =>
                       match pack_all l' flat' with
                       | None => None
                       | Some (ys, flat'') => Some (y :: ys, flat'')
                       end
                   end
               end) xs flat with
      | None => None
      | Some (ys, rest) => Some (Seq k ys, rest)
      end
  | _ =>
      match flat with
      | [] => None
      | y :: rest => Some (y, rest)
      end
  end.

(** Star-unpacking of a tuple of positional arguments. *)
Definition unpack (v : value) : list value :=
  match v with
  | Seq _ xs => xs
  | _ => []
  end.

Fixpoint mapM {E A B} (f : A -> M E B) (xs : list A) : M E (list B) :=
  match xs with
  | [] => ret []
  | x :: xs' => y <- f x ;; ys <- mapM f xs' ;; ret (y :: ys)
  end.

(** ** np_function *)

Class NumpyHost := {
  tensor_numpy : value -> outcome host_exn value;       (* x.numpy() *)
  convert_to_tensor : value -> outcome host_exn value;  (* tf.convert_to_tensor(x) *)
  get_dtype : value -> outcome host_exn atom;           (* x.dtype *)
  get_shape : value -> outcome host_exn value;          (* x.shape *)
  as_numpy_dtype : atom -> outcome host_exn atom;       (* d.as_numpy_dtype *)
  np_ones : value -> atom -> outcome host_exn value;    (* np.ones(shape, dtype) *)
  (* tf.py_function(partial(func, kwargs), inp, Tout) *)
  py_function : nat -> kwdict -> value -> value -> world -> outcome host_exn value * world;
}.

Context `{NH : NumpyHost}.

(** [func.memo = {}] *)
Definition memo_reset {E} (fid : nat) : M E unit :=
  fun s => (Return tt, State (host s) (trace s) (dicts s) (<[fid := ∅]> (memo s))).

(** [func.memo.get(key)] *)
Definition memo_get {E} (fid : nat) (key : list atom) : M E (option value) :=
  fun s => (Return ((memo s !!! fid) !! key), s).

(** [func.memo[key] = entry] *)
Definition memo_set {E} (fid : nat) (key : list atom) (entry : value) : M E unit :=
  fun s => (Return tt,
            State (host s) (trace s) (dicts s)
                  (<[fid := <[key := entry]> (memo s !!! fid)]> (memo s))).

(** [lambda x: x if x is None else tf.convert_to_tensor(x)] *)
Definition convert (x : value) : outcome host_exn value :=
  match x with
  | PyNone => Return PyNone
  | _ => convert_to_tensor x
  end.

(** [lambda x: np.ones(x.shape, x.dtype.as_numpy_dtype)] *)
Definition ones_like (x : value) : outcome host_exn value :=
  match get_shape x with
  | Raise e => Raise e
  | Return shape =>
      match get_dtype x with
      | Raise e => Raise e
      | Return d =>
          match as_numpy_dtype d with
          | Raise e => Raise e
          | Return nd => np_ones shape nd
          end
      end
  end.

(** [lambda x: x.dtype] *)
Definition dtype_value (x : value) : outcome host_exn value :=
  match get_dtype x with
  | Raise e => Raise e
  | Return d => Return (Atom d)
  end.

(** [compute_output_dtypes] applied to the unpacked [zero_args], with
    [func_part] the partial application of [func] to [kwargs]. *)
Definition compute_output_dtypes (func : callable) (kwargs : kwdict)
    (zero_args : list value) : M host_exn value :=
  result <- call func zero_args kwargs ;;
  dtypes <- map_structure (fun x => of_outcome (dtype_value x)) result ;;
  ret (Seq KList (flatten dtypes)).

(** [wrapper] of [np_function(func, get_output_dtypes)].  [func_part] is
    [func] itself or its partial application to [kwargs]; either way a call
    of [func_part] on positional arguments is a call of [func] on them and
    [kwargs]. *)
Definition wrapper (func : callable) (get_output_dtypes : value)
    (args : list value) (kwargs : kwdict) : M exn value :=
  w <- get_host ;;
  if executing_eagerly w then
    np_args <- from_callee
      (map_structure (fun x => of_outcome (tensor_numpy x)) (tuple args)) ;;
    result <- from_callee (call func (unpack np_args) kwargs) ;;
    from_callee (map_structure (fun x => of_outcome (convert x)) result)
  else
    input_dtypes <- from_callee
      (mapM (fun x => of_outcome (get_dtype x)) (flatten (tuple args))) ;;
    cached <- memo_get (fn_id func) input_dtypes ;;
    match cached with
    | Some _ => ret tt
    | None =>
        log (EMiss (fn_id func) input_dtypes) ;;;
        entry <- from_callee
          match get_output_dtypes with
          | PyNone =>
              zero_args <- map_structure (fun x => of_outcome (ones_like x)) (tuple args) ;;
              compute_output_dtypes func kwargs (unpack zero_args)
          | _ => py_call get_output_dtypes (Atom <$> input_dtypes) ∅
          end ;;
        memo_set (fn_id func) input_dtypes entry
    end ;;;
    found <- memo_get (fn_id func) input_dtypes ;;
    match found with
    | None => raise (Host (interp_error "KeyError"))
    | Some output_dtypes =>
        log (EHost "tf.py_function" [tuple args; output_dtypes] kwargs) ;;;
        from_callee (on_host (py_function (fn_id func) kwargs (tuple args) output_dtypes))
    end.

(** Whether [func.memo = {}] can be executed: a method object takes no new
    attribute, and neither does an object without a [__dict__], such as a
    builtin. *)
Definition can_set_memo (func : callable) : bool :=
  negb (fn_ismethod func) && takes_attributes func.

(** [decorated(func)]: attach an empty memo and hand out [wrapper]. *)
Definition decorated (func : callable) (get_output_dtypes : value)
  : M exn (list value -> kwdict -> M exn value) :=
  if can_set_memo func then
    memo_reset (fn_id func) ;;;
    ret (wrapper func get_output_dtypes)
  else raise (Host (interp_error "AttributeError")).

Inductive np_function_result :=
| Wrapped (w : list value -> kwdict -> M exn value)
| Decorator (d : callable -> M exn (list value -> kwdict -> M exn value)).

(** [np_function(func, get_output_dtypes)]: with [func] the wrapped
    function, without it the decorator. *)
Definition np_function (func : option callable) (get_output_dtypes : value)
  : M exn np_function_result :=
  match func with
  | Some f => w <- decorated f get_output_dtypes ;; ret (Wrapped w)
  | None => ret (Decorator (fun f => decorated f get_output_dtypes))
  end.

(** ** Context managers *)

(** [try: m finally: cleanup] *)
Definition finally {E A} (m : M E A) (cleanup : M E unit) : M E A :=
  fun s => let '(r, s') := m s in
           match cleanup s' with
           | (Return _, s'') => (r, s'')
           | (Raise e, s'') => (Raise e, s'')
           end.

(** [with ctx as v: body] *)
Definition with_ctx {A} (ctx : value) (body : value -> M host_exn A) : M host_exn A :=
  v <- tf "__enter__" [ctx] ∅ ;;
  finally (body v) (tf "__exit__" [ctx] ∅ ;;; ret tt).

(** The characters of a string, each as a string of length one. *)
Fixpoint characters (s : string) : list value :=
  match s with
  | EmptyString => []
  | String c r => PyStr (String c EmptyString) :: characters r
  end.

(** Iterating over an object to its end: tuples and lists give their items,
    a string its characters; an object of the framework is asked for its
    items, and answers with them or with an exception; nothing else is
    iterable. *)
Definition iterate (v : value) : M host_exn (list value) :=
  match v with
  | Seq _ xs => ret xs
  | PyStr s => ret (characters s)
  | Atom _ =>
      r <- tf "iter" [v] ∅ ;;
      match r with
      | Seq _ xs => ret xs
      | _ => raise (interp_error "TypeError")
      end
  | _ => raise (interp_error "TypeError")
  end.

(** ** add_gradients_summaries *)

(** [s.replace(':', '_')] *)
Fixpoint replace_colon (s : string) : string :=
  match s with
  | EmptyString => EmptyString
  | String c r =>
      String (if Ascii.eqb c ":"%char then "_"%char else c) (replace_colon r)
  end.

Definition summarize_pair (item : value) : M host_exn unit :=
  gv <- iterate item ;;
  match gv with
  | [grad; var] =>
      match grad with
      | PyNone =>
          name <- tf "getattr" [var; PyStr "name"] ∅ ;;
          tf "tf.logging.info" [PyStr "Var %s has no gradient"; name] ∅ ;;; ret tt
      | _ =>
          is_slices <- tf "isinstance" [grad; PyStr "tf.IndexedSlices"] ∅ ;;
          grad_values <- (if truthy is_slices
                          then tf "getattr" [grad; PyStr "values"] ∅
                          else ret grad) ;;
          name <- tf "getattr" [var; PyStr "name"] ∅ ;;
          match name with
          | PyStr n =>
              let var_name := replace_colon n in
              tf "tf.contrib.summary.histogram"
                 [PyStr (var_name ++ "_gradient"); grad_values] ∅ ;;;
              norm <- tf "tf.global_norm" [Seq KList [grad_values]] ∅ ;;
              tf "tf.contrib.summary.scalar"
                 [PyStr (var_name ++ "_gradient_norm"); norm] ∅ ;;; ret tt
          | _ => raise (interp_error "AttributeError")
          end
      end
  | _ => raise (interp_error "ValueError")
  end.

Definition add_gradients_summaries (grads_and_vars : value) : M host_exn unit :=
  items <- iterate grads_and_vars ;;
  for_each items summarize_pair.

(** ** create_train_step *)

Record train_args := TrainArgs {
  global_step : value;
  total_loss_fn : value;
  update_ops : value;
  variables_to_train : value;
  transform_grads_fn : value;
  summarize_gradients : value;
  gate_gradients : value;
  aggregation_method : value;
  colocate_gradients_with_ops : value;
  check_numerics : value;
}.

(** [_USE_GLOBAL_STEP = 0] and the test [global_step is _USE_GLOBAL_STEP]. *)
Definition is_USE_GLOBAL_STEP (v : value) : bool :=
  match v with
  | PyInt 0 => true
  | _ => false
  end.

(** The defaults of the signature; [GATE_OP] is [tf.train.Optimizer.GATE_OP]. *)
Definition default_train_args (GATE_OP : value) : train_args :=
  TrainArgs (PyInt 0) PyNone PyNone PyNone PyNone (PyBool false) GATE_OP PyNone
            (PyBool false) (PyBool true).

(** What the nested [train_step] closes over. *)
Record train_closure := TrainClosure {
  cl_optimizer : value;
  cl_global_step : value;
  cl_transform_grads_fn : value;
  cl_summarize_gradients : value;
  cl_check_numerics : value;
}.

Definition pop_key (name : string) (kwargs : kwdict) : M host_exn (value * kwdict) :=
  match kwargs !! name with
  | Some v => ret (v, delete name kwargs)
  | None => raise (interp_error "KeyError")
  end.

Definition pair_up (grads vars : list value) : list value :=
  zip_with (fun g v => tuple [g; v]) grads vars.

(** [with tf.name_scope(name): body] *)
Definition name_scope {A} (name : string) (body : M host_exn A) : M host_exn A :=
  ctx <- tf "tf.name_scope" [PyStr name] ∅ ;;
  with_ctx ctx (fun _ => body).

(** [train_step], the function inside [create_train_step].  [zip] gives a
    list under Python 2 and a one-shot iterator under Python 3.  While the
    iterator stays inside [train_step] it is the list of the pairs it has
    yet to give, with a mark [one_shot]: once [add_gradients_summaries] has
    run over it nothing is left in it.  The gradients are run over when the
    pairs are made; [tape.gradient] returns a list for a list of variables,
    and for a list it makes no difference when that happens.  When the
    iterator is handed to [transform_grads_fn] it is an object of the
    interpreter, made by [zip], and what comes back is used as it is. *)
Definition train_step (cl : train_closure) (args : list value) (kwargs : kwdict)
  : M host_exn value :=
  p <- pop_key "_loss" kwargs ;;
  let '(_loss, kwargs) := p in
  p <- pop_key "_total_loss_fn" kwargs ;;
  let '(_total_loss_fn, kwargs) := p in
  p <- pop_key "_variables_to_train" kwargs ;;
  let '(_variables_to_train, kwargs) := p in
  ctx <- tf "tf.GradientTape" [] ∅ ;;
  p <- with_ctx ctx (fun tape =>
      loss_value <- py_call _loss args ∅ ;;
      total_loss_value <- py_call _total_loss_fn [loss_value] ∅ ;;
      ret (tape, loss_value, total_loss_value)) ;;
  let '(tape, loss_value, total_loss_value) := p in
  _variables_to_train <-
    match _variables_to_train with
    | PyNone => tf "GradientTape.watched_variables" [tape] ∅
    | _ => if bool_decide (is_Some (py_callable _variables_to_train))
           then py_call _variables_to_train [] ∅
           else ret _variables_to_train
    end ;;
  let _variables_to_train := flatten _variables_to_train in
  grads <- tf "GradientTape.gradient"
              [tape; total_loss_value; Seq KList _variables_to_train] ∅ ;;
  p <- (if PY2 || negb (truthy (cl_transform_grads_fn cl))
        then
          grads <- iterate grads ;;
          ret (Seq KList (pair_up grads _variables_to_train), negb PY2)
        else
          z <- tf "zip" [grads; Seq KList _variables_to_train] ∅ ;;
          ret (z, false)) ;;
  let '(grads_and_vars, one_shot) := p in
  p <- (if truthy (cl_transform_grads_fn cl)
        then r <- py_call (cl_transform_grads_fn cl) [grads_and_vars] ∅ ;; ret (r, false)
        else ret (grads_and_vars, one_shot)) ;;
  let '(grads_and_vars, one_shot) := p in
  grads_and_vars <-
    (if truthy (cl_summarize_gradients cl)
     then name_scope "summarize_grads" (add_gradients_summaries grads_and_vars) ;;;
          ret (if one_shot : bool then Seq KList [] else grads_and_vars)
     else ret grads_and_vars) ;;
  loss_value <-
    (if truthy (cl_check_numerics cl)
     then name_scope "train_op"
          match flatten loss_value with
          | [] => raise (interp_error "IndexError")
          | first :: rest =>
              checked <- tf "tf.check_numerics" [first; PyStr "Loss is inf or nan"] ∅ ;;
              match pack loss_value (checked :: rest) with
              | Some (packed, []) => ret packed
              | _ => raise (interp_error "ValueError")
              end
          end
     else ret loss_value) ;;
  tf "Optimizer.apply_gradients" [cl_optimizer cl; grads_and_vars]
     {[ "global_step"%string := cl_global_step cl ]} ;;;
  ret loss_value.

Global Instance train_closure_PyCallable : PyCallable train_closure := {
  is_staticmethod _ := false;
  ismethod _ := false;
  is_classmethod _ := false;
  getargspec_args _ := Return [];
  getfullargspec_args _ := Return [];
  signature_parameters _ := Return ["args"%string; "kwargs"%string];
  dunder_self _ := None;
  apply := train_step;
}.

Definition total_loss_fn_msg : string := "`total_loss_fn` should be a function.".
Definition loss_msg : string := "`loss` should be a function in eager mode.".

Inductive train_result :=
| GraphLoss (loss : value)               (* graph mode: tensors *)
| EagerStep (fut : Future train_closure).   (* eager mode: a Future of train_step *)

Definition is_callable (v : value) : bool := bool_decide (is_Some (py_callable v)).

Definition create_train_op_kwargs (a : train_args) (variables_to_train : value) : kwdict :=
  <["global_step"%string := global_step a]>
  (<["update_ops"%string := update_ops a]>
  (<["variables_to_train"%string := variables_to_train]>
  (<["transform_grads_fn"%string := transform_grads_fn a]>
  (<["summarize_gradients"%string := summarize_gradients a]>
  (<["gate_gradients"%string := gate_gradients a]>
  (<["aggregation_method"%string := aggregation_method a]>
  (<["colocate_gradients_with_ops"%string := colocate_gradients_with_ops a]>
  (<["check_numerics"%string := check_numerics a]> ∅)))))))).

Definition create_train_step (loss optimizer : value) (a : train_args)
  : M exn train_result :=
  let total_loss_fn := match total_loss_fn a with
                       | PyNone => Lambda_identity
                       | f => f
                       end in
  if negb (is_callable total_loss_fn) then raise (Own ValueError total_loss_fn_msg)
  else
  w <- get_host ;;
  if negb (executing_eagerly w) then
    loss <- (if is_callable loss then from_callee (py_call loss [] ∅) else ret loss) ;;
    variables_to_train <-
      (if is_callable (variables_to_train a)
       then from_callee (py_call (variables_to_train a) [] ∅)
       else ret (variables_to_train a)) ;;
    ctx <- from_callee (tf "tf.control_dependencies" [Seq KList (flatten loss)] ∅) ;;
    train_op <- from_callee (with_ctx ctx (fun _ =>
        total_loss <- py_call total_loss_fn [loss] ∅ ;;
        tf "tf.contrib.training.create_train_op" [total_loss; optimizer]
           (create_train_op_kwargs a variables_to_train))) ;;
    ctx <- from_callee (tf "tf.control_dependencies" [Seq KList [train_op]] ∅) ;;
    r <- from_callee (with_ctx ctx (fun _ =>
        map_structure (fun t => tf "tf.identity" [t; PyStr "loss"] ∅) loss)) ;;
    ret (GraphLoss r)
  else
    global_step <-
      (if is_USE_GLOBAL_STEP (global_step a)
       then from_callee (tf "tf.train.get_or_create_global_step" [] ∅)
       else ret (global_step a)) ;;
    if negb (is_callable loss) then raise (Own ValueError loss_msg)
    else
    (if is_Future_instance loss then ret tt
     else from_callee
            (tf "tf.logging.warning"
                [PyStr "loss should be an instance of eager_utils.Future"] ∅) ;;; ret tt) ;;;
    fut <- Future_new
      (TrainClosure optimizer global_step (transform_grads_fn a)
                    (summarize_gradients a) (check_numerics a))
      []
      (<["_loss"%string := loss]>
       (<["_total_loss_fn"%string := total_loss_fn]>
        (<["_variables_to_train"%string := variables_to_train a]> ∅))) ;;
    ret (EagerStep fut).

End Model.

(** ** The vocabulary of the statements *)

Section Vocabulary.
Context `{HT : HostTypes} `{PH : !PyHost} `{NH : !NumpyHost}.

(** The keyword arguments left once [names] have been popped. *)
Definition remove_keys (names : list string) (d : gmap string value) : gmap string value :=
  foldl (fun d k => delete k d) d names.

(** The [self] or [cls] that [__call__] puts in front: the stored one, when
    it is true. *)
Definition self_prefix {F} (fut : Future F) : list value :=
  match _self fut with
  | Some v => if truthy v then [v] else []
  | None => []
  end.

(** The positional arguments [__call__] passes on. *)
Definition call_args_of {F} (fut : Future F) (args : list value) : list value :=
  self_prefix fut ++ match args with [] => _args fut | _ => args end.

(** The keyword arguments [__call__] passes on. *)
Definition call_kwargs_of {F} (fut : Future F) (stored : gmap string value)
    (args : list value) (kwargs : gmap string value) : gmap string value :=
  kwargs ∪ remove_keys (take (length args) (_arg_names fut)) stored.

(** The state once [__call__] has built its own dictionary. *)
Definition with_call_dict (s : state) (kw : gmap string value) : state :=
  State (host s) (trace s) (<[fresh (dom (dicts s)) := kw]> (dicts s)) (memo s).

(** A callee's outcome seen from the module. *)
Definition lift_outcome {A} (o : outcome host_exn A) : outcome exn A :=
  match o with
  | Return a => Return a
  | Raise e => Raise (Host e)
  end.

(** The state after a call of the user function [f]: the framework's state
    is what the body left, and the call is on the trace. *)
Definition after_call (s : state) (f : callable) (args : list value)
    (kwargs : gmap string value) (w : world) : state :=
  State w (trace s ++ [ECall (fn_id f) args kwargs]) (dicts s) (memo s).

(** The state once [Future(...)] has stored its copy of the keyword
    arguments, and the reference to that copy. *)
Definition kwargs_ref (s : state) (kwargs : gmap string value) : nat :=
  fresh (dom (<[fresh (dom (dicts s)) := kwargs]> (dicts s))).

Definition after_new (s : state) (kwargs : gmap string value) : state :=
  State (host s) (trace s)
        (<[kwargs_ref s kwargs := kwargs]> (<[fresh (dom (dicts s)) := kwargs]> (dicts s)))
        (memo s).

(** [map_structure] for a function without effects. *)
Fixpoint map_structure_o {E} (f : value -> outcome E value) (v : value)
  : outcome E value :=
  match v with
  | Seq k xs =>
      match (fix map_all (l : list value) : outcome E (list value) :=
               match l with
               | [] => Return []
               | x :: l' =>
                   match map_structure_o f x with
                   | Raise e => Raise e
                   | Return y =>
                       match map_all l' with
                       | Raise e => Raise e
                       | Return ys => Return (y :: ys)
                       end
                   end
               end) xs with
      | Raise e => Raise e
      | Return ys => Return (Seq k ys)
      end
  | _ => f v
  end.

Fixpoint mapM_o {E A B} (f : A -> outcome E B) (xs : list A) : outcome E (list B) :=
  match xs with
  | [] => Return []
  | x :: xs' =>
      match f x with
      | Raise e => Raise e
      | Return y =>
          match mapM_o f xs' with
          | Raise e => Raise e
          | Return ys => Return (y :: ys)
          end
      end
  end.

(** The key of a graph-mode call in the memo. *)
Definition input_dtypes_of (args : list value) : outcome host_exn (list atom) :=
  mapM_o get_dtype (flatten (tuple args)).

(** An entry of the memo of the function [fid]. *)
Definition memo_entry (s : state) (fid : nat) (key : list atom) : option value :=
  (memo s !!! fid) !! key.

(** How often the trace records a memo miss of [fid] at [key]. *)
Definition is_miss (fid : nat) (key : list atom) (e : event) : bool :=
  match e with
  | EMiss fid' key' => bool_decide (fid' = fid) && bool_decide (key' = key)
  | _ => false
  end.

Definition misses (fid : nat) (key : list atom) (t : list event) : nat :=
  length (filter (fun e => is_miss fid key e = true) t).

(** The inference of output dtypes that a memo miss starts in [wrapper]. *)
Definition inference (func : callable) (get_output_dtypes : value)
    (args : list value) (kwargs : gmap string value) (input_dtypes : list atom)
  : M host_exn value :=
  match get_output_dtypes with
  | PyNone =>
      bind (map_structure (fun x => of_outcome (ones_like x)) (tuple args))
           (fun zero_args => compute_output_dtypes func kwargs (unpack zero_args))
  | _ => py_call get_output_dtypes (Atom <$> input_dtypes) ∅
  end.

(** The output dtypes in the words of the documentation: the dtypes of
    what [func] returns on arrays of ones shaped and typed like the
    arguments, flattened, or else what [get_output_dtypes] returns on the
    input dtypes.  [None] when a step raises. *)
Definition output_dtypes_of (func : callable) (get_output_dtypes : value)
    (args : list value) (kwargs : gmap string value) (input_dtypes : list atom)
    (w : world) : option value :=
  match get_output_dtypes with
  | PyNone =>
      match mapM_o (map_structure_o ones_like) args with
      | Return zero_args =>
          match fn_body func zero_args kwargs w with
          | (Return result, _) =>
              match map_structure_o dtype_value result with
              | Return dtypes => Some (Seq KList (flatten dtypes))
              | Raise _ => None
              end
          | (Raise _, _) => None
          end
      | Raise _ => None
      end
  | _ =>
      match py_callable get_output_dtypes with
      | Some g =>
          match fn_body g (Atom <$> input_dtypes) ∅ w with
          | (Return entry, _) => Some entry
          | (Raise _, _) => None
          end
      | None => None
      end
  end.

(** The output shapes of [func] on the same arrays of ones. *)
Definition output_shapes_of (func : callable)
    (args : list value) (kwargs : gmap string value) (w : world) : option value :=
  match mapM_o (map_structure_o ones_like) args with
  | Return zero_args =>
      match fn_body func zero_args kwargs w with
      | (Return result, _) =>
          match map_structure_o get_shape result with
          | Return shapes => Some (Seq KList (flatten shapes))
          | Raise _ => None
          end
      | (Raise _, _) => None
      end
  | Raise _ => None
  end.

(** The last step of a graph-mode call: [tf.py_function] with [Tout]. *)
Definition py_function_step (func : callable) (args : list value)
    (kwargs : gmap string value) (Tout : value) (s : state) : outcome exn value * state :=
  let '(r, w) := py_function (fn_id func) kwargs (tuple args) Tout (host s) in
  (lift_outcome r,
   State w (trace s ++ [EHost "tf.py_function" [tuple args; Tout] kwargs])
         (dicts s) (memo s)).

(** The state at a memo miss, and the state once the inferred entry is stored. *)
Definition at_miss (s : state) (fid : nat) (key : list atom) : state :=
  State (host s) (trace s ++ [EMiss fid key]) (dicts s) (memo s).

Definition with_entry (s : state) (fid : nat) (key : list atom) (entry : value) : state :=
  State (host s) (trace s) (dicts s) (<[fid := <[key := entry]> (memo s !!! fid)]> (memo s)).

(** An action that leaves the memos alone and starts no inference. *)
Definition quiet {E A} (m : M E A) : Prop :=
  ∀ s, memo (m s).2 = memo s
       ∧ ∀ fid key, misses fid key (trace (m s).2) = misses fid key (trace s).

(** The function [create_train_step] applies to the loss: [total_loss_fn],
    or the identity when that is [None]. *)
Definition effective_total_loss_fn (a : train_args) : value :=
  match total_loss_fn a with
  | PyNone => Lambda_identity
  | f => f
  end.

(** The state after a call into the framework that left the world [w]. *)
Definition after_tf (s : state) (op : string) (args : list value)
    (kwargs : gmap string value) (w : world) : state :=
  State w (trace s ++ [EHost op args kwargs]) (dicts s) (memo s).




(** The keyword arguments [create_train_step] binds in its [Future]. *)
Definition train_kwargs (loss total_loss_fn variables_to_train : value)
  : gmap string value :=
  <["_loss"%string := loss]>
  (<["_total_loss_fn"%string := total_loss_fn]>
  (<["_variables_to_train"%string := variables_to_train]> ∅)).

(** A call that left the module and returned, with what it returned. *)
Inductive step :=
| HostStep (op : string) (args : list value) (kwargs : gmap string value) (r : value)
| CallStep (c : callable) (args : list value) (kwargs : gmap string value) (r : value).

Definition event_of (st : step) : event :=
  match st with
  | HostStep op args kwargs _ => EHost op args kwargs
  | CallStep c args kwargs _ => ECall (fn_id c) args kwargs
  end.

(** The framework, started in [w], answers the calls of [steps] one after
    the other with the results they record, and is left in [w']. *)
Fixpoint replay (w : world) (steps : list step) (w' : world) : Prop :=
  match steps with
  | [] => w' = w
  | HostStep op args kwargs r :: rest =>
      ∃ w1, host_call op args kwargs w = (Return r, w1) ∧ replay w1 rest w'
  | CallStep c args kwargs r :: rest =>
      ∃ w1, fn_body c args kwargs w = (Return r, w1) ∧ replay w1 rest w'
  end.

(** From [s] to [s'] the module made the calls of [steps], in order, got
    the answers they record, and changed nothing else. *)
Definition ran (s : state) (steps : list step) (s' : state) : Prop :=
  trace s' = trace s ++ (event_of <$> steps)
  ∧ dicts s' = dicts s
  ∧ memo s' = memo s
  ∧ replay (host s) steps (host s').

(** [r] is what [v] returns when called without arguments, if [v] is
    callable, and [v] itself otherwise. *)
Definition called_or_given (v r : value) (steps : list step) : Prop :=
  match py_callable v with
  | Some c => steps = [CallStep c [] ∅ r]
  | None => steps = [] ∧ r = v
  end.

(** How [train_step] gets the variables to train: those the tape has
    watched when none were given. *)
Definition vars_step (variables_to_train tape vars : value) (steps : list step) : Prop :=
  match variables_to_train with
  | PyNone => steps = [HostStep "GradientTape.watched_variables" [tape] ∅ vars]
  | _ => called_or_given variables_to_train vars steps
  end.

(** Iterating over [v] gave [xs]. *)
Definition iterated (v : value) (xs : list value) (steps : list step) : Prop :=
  match v with
  | Seq _ ys => xs = ys ∧ steps = []
  | PyStr str => xs = characters str ∧ steps = []
  | Atom _ => ∃ k, steps = [HostStep "iter" [v] ∅ (Seq k xs)]
  | _ => False
  end.

(** The check of the loss in [train_step]: the first leaf goes through
    [tf.check_numerics] under the name scope [train_op], and [v] is the
    loss with that leaf replaced by the result. *)
Definition check_step (check loss_value v : value) (steps : list step) : Prop :=
  if truthy check
  then ∃ scope u first rest checked u',
         flatten loss_value = first :: rest
         ∧ pack loss_value (checked :: rest) = Some (v, [])
         ∧ (checked = first → v = loss_value)
         ∧ steps = [HostStep "tf.name_scope" [PyStr "train_op"] ∅ scope;
                    HostStep "__enter__" [scope] ∅ u;
                    HostStep "tf.check_numerics"
                             [first; PyStr "Loss is inf or nan"] ∅ checked;
                    HostStep "__exit__" [scope] ∅ u']
  else steps = [] ∧ v = loss_value.

(** One call of [op] for each of [ts], with the results [outs]. *)
Definition map_steps (op : string) (extra : list value) (ts outs : list value)
  : list step :=
  zip_with (λ t o, HostStep op (t :: extra) ∅ o) ts outs.

(** An action that raises no exception of the module's own. *)
Definition no_own {A} (m : M exn A) : Prop :=
  ∀ s c msg s', m s ≠ (Raise (Own c msg), s').

(** [pack] along a list of structures. *)
Fixpoint pack_list (l : list value) (flat : list value)
  : option (list value * list value) :=
  match l with
  | [] => Some ([], flat)
  | x :: l' =>
      match pack x flat with
      | None => None
      | Some (y, flat') =>
          match pack_list l' flat' with
          | None => None
          | Some (ys, flat'') => Some (y :: ys, flat'')
          end
      end
  end.

(** A series of calls of [wrapper], each started in the state the one
    before it left, whether that one returned or raised. *)
Fixpoint run_calls (func : callable) (get_output_dtypes : value)
    (calls : list (list value * gmap string value)) (s : state) : state :=
  match calls with
  | [] => s
  | (args, kwargs) :: rest =>
      run_calls func get_output_dtypes rest
                (wrapper func get_output_dtypes args kwargs s).2
  end.

(** The characters of a string. *)
Fixpoint chars (s : string) : list ascii :=
  match s with
  | EmptyString => []
  | String c r => c :: chars r
  end.

(** Does the event record a call of the framework function [op]? *)
Definition is_op (op : string) (e : event) : bool :=
  match e with
  | EHost op' _ _ => String.eqb op' op
  | _ => false
  end.

(** How many calls of [op] a trace records. *)
Definition count_op (op : string) (t : list event) : nat :=
  length (filter (fun e => is_op op e = true) t).


(** The calls [add_gradients_summaries] makes for a gradient that is not
    [None]. *)
Definition gradient_trace (grad var is_slices grad_values : value) (n : string)
    (norm : value) : list event :=
  [EHost "isinstance" [grad; PyStr "tf.IndexedSlices"] ∅]
  ++ (if truthy is_slices then [EHost "getattr" [grad; PyStr "values"] ∅] else [])
  ++ [EHost "getattr" [var; PyStr "name"] ∅;
      EHost "tf.contrib.summary.histogram"
            [PyStr (replace_colon n ++ "_gradient"); grad_values] ∅;
      EHost "tf.global_norm" [Seq KList [grad_values]] ∅;
      EHost "tf.contrib.summary.scalar"
            [PyStr (replace_colon n ++ "_gradient_norm"); norm] ∅].


(** [xs] is what iterating over [v] gives, and [t] the calls it takes:
    none for a tuple, a list or a string, one for an object of the
    framework, which answers with the items. *)
Definition yields (v : value) (xs : list value) (t : list event) : Prop :=
  match v with
  | Seq _ ys => xs = ys ∧ t = []
  | PyStr str => xs = characters str ∧ t = []
  | Atom _ => t = [EHost "iter" [v] ∅]
              ∧ ∃ w w' k, host_call "iter" [v] ∅ w = (Return (Seq k xs), w')
  | _ => False
  end.

Definition is_None (v : value) : bool :=
  match v with
  | PyNone => true
  | _ => false
  end.

(** The calls [add_gradients_summaries] makes for a gradient and its
    variable. *)
Definition summary_trace (grad var : value) (t : list event) : Prop :=
  if is_None grad
  then ∃ name,
         t = [EHost "getattr" [var; PyStr "name"] ∅;
              EHost "tf.logging.info" [PyStr "Var %s has no gradient"; name] ∅]
  else ∃ is_slices grad_values n norm,
         (truthy is_slices = false → grad_values = grad)
         ∧ t = gradient_trace grad var is_slices grad_values n norm.

(** The calls [add_gradients_summaries] makes for an item that unpacks
    into the gradient and the variable [p]. *)
Definition item_trace (item : value) (p : value * value) (t : list event) : Prop :=
  ∃ t0 t1, yields item [p.1; p.2] t0 ∧ summary_trace p.1 p.2 t1 ∧ t = t0 ++ t1.

(** The tag of a summary has no colon. *)
Definition tag_without_colon (e : event) : Prop :=
  match e with
  | EHost op args _ =>
      if String.eqb op "tf.contrib.summary.histogram"
         || String.eqb op "tf.contrib.summary.scalar"
      then match args with
           | PyStr tag :: _ => ":"%char ∉ chars tag
           | _ => True
           end
      else True
  | _ => True
  end.

(** The calls [create_train_step] makes in eager mode before it builds its
    [Future]. *)
Definition eager_setup_trace (loss : value) (a : train_args) : list event :=
  (if is_USE_GLOBAL_STEP (global_step a)
   then [EHost "tf.train.get_or_create_global_step" [] ∅]
   else [])
  ++ (if is_Future_instance loss then []
      else [EHost "tf.logging.warning"
                  [PyStr "loss should be an instance of eager_utils.Future"] ∅]).

(** The state of a training step whose loss raised under the tape. *)
Definition after_failed_loss (s : state) (ctx : value) (c : callable)
    (args : list value) (w : world) : state :=
  State w
        (trace s ++ [EHost "tf.GradientTape" [] ∅;
                     EHost "__enter__" [ctx] ∅;
                     ECall (fn_id c) args ∅;
                     EHost "__exit__" [ctx] ∅])
        (dicts s) (memo s).

End Vocabulary.

(** ** A small framework to run the definitions on

    Atoms are numbers.  [0] is an object that is false (an empty
    container); [1] to [9] are tensors and [1001] to [1009] their numpy
    values; [50] and [51] are dtypes; [100] and above are functions. *)

Module Toy.

Definition toy_types : HostTypes :=
  {| world := bool * nat; atom := nat; host_exn := string |}.
#[local] Existing Instance toy_types.

(** A function body that returns the tuple of its positional arguments and
    counts the call. *)
Definition echo (args : list value) (kwargs : gmap string value) (w : bool * nat)
  : outcome string value * (bool * nat) :=
  (Return (tuple args), (w.1, S w.2)).

(** A numpy function that returns its first argument. *)
Definition first_arg (args : list value) (kwargs : gmap string value) (w : bool * nat)
  : outcome string value * (bool * nat) :=
  match args with
  | x :: _ => (Return x, (w.1, S w.2))
  | [] => (Return PyNone, (w.1, S w.2))
  end.

(** A numpy function that fails, as [np.linalg.inv] does on a matrix of ones. *)
Definition singular (args : list value) (kwargs : gmap string value) (w : bool * nat)
  : outcome string value * (bool * nat) :=
  (Raise "LinAlgError"%string, (w.1, S w.2)).

Definition plain (fid : nat) (names : list string)
    (body : list value -> gmap string value -> bool * nat -> outcome string value * (bool * nat))
  : callable :=
  Callable fid false false false (Return names) (Return names) (Return names) None body.

(** [def method(self, x)], looked up on the class. *)
Definition method : callable := plain 100 ["self"; "x"]%string echo.
(** [def f(a, b)] *)
Definition f_ab : callable := plain 101 ["a"; "b"; "c"]%string echo.
(** [def np_first(x)] *)
Definition np_first : callable := plain 110 ["x"]%string first_arg.
(** [def np_inv(x)] *)
Definition np_inv : callable := plain 111 ["x"]%string singular.
(** [def loss_fn()] *)
Definition loss_fn : callable := plain 120 [] echo.

Definition toy_callable (a : nat) : option callable :=
  if bool_decide (a = 100) then Some method
  else if bool_decide (a = 101) then Some f_ab
  else if bool_decide (a = 110) then Some np_first
  else if bool_decide (a = 111) then Some np_inv
  else if bool_decide (a = 120) then Some loss_fn
  else None.

Definition toy_host_call (op : string) (args : list value) (kwargs : gmap string value)
    (w : bool * nat) : outcome string value * (bool * nat) :=
  let w' := (w.1, S w.2) in
  if bool_decide (op = "__enter__"%string) then (Return (default PyNone (head args)), w')
  else if bool_decide (op = "tf.GradientTape"%string) then (Return (Atom 20), w')
  else if bool_decide (op = "tf.name_scope"%string) then (Return (Atom 21), w')
  else if bool_decide (op = "GradientTape.watched_variables"%string)
       then (Return (Seq KList [Atom 40]), w')
  else if bool_decide (op = "GradientTape.gradient"%string)
       then (Return (Seq KList [Atom 30]), w')
  else if bool_decide (op = "tf.check_numerics"%string)
       then (Return (default PyNone (head args)), w')
  else if bool_decide (op = "tf.identity"%string)
       then (Return (default PyNone (head args)), w')
  else if bool_decide (op = "tf.train.get_or_create_global_step"%string)
       then (Return (Atom 9), w')
  else (Return PyNone, w').

Definition toy_py : PyHost := {|
  PY2 := false;
  truthy_atom a := negb (bool_decide (a = 0));
  atom_callable := toy_callable;
  executing_eagerly w := w.1;
  is_Future_instance _ := false;
  interp_error s := s;
  takes_attributes c := negb (bool_decide (fn_id c = 140));
  host_call := toy_host_call;
|}.
#[local] Existing Instance toy_py.

Definition leaf_atom (f : nat -> outcome string value) (v : value) : outcome string value :=
  match v with
  | Atom a => f a
  | _ => Raise "AttributeError"%string
  end.

Definition toy_np : NumpyHost := {|
  tensor_numpy := leaf_atom (fun a => Return (Atom (1000 + a)));
  convert_to_tensor := leaf_atom (fun a => Return (Atom (a - 1000)));
  get_dtype v := match v with
                 | Atom a => Return (50 + a `mod` 2)
                 | _ => Raise "AttributeError"%string
                 end;
  get_shape := leaf_atom (fun _ => Return (tuple [PyInt 2]));
  as_numpy_dtype d := Return d;
  np_ones _ d := Return (Atom (952 + d));
  py_function _ _ _ _ w := (Return (Atom 7), (w.1, S w.2));
|}.
#[local] Existing Instance toy_np.

(** The object numbered [n]. *)
Definition obj (n : nat) : value := Atom n.

Definition eager0 : state := State (true, 0) [] ∅ ∅.
Definition graph0 : state := State (false, 0) [] ∅ ∅.

(** A state with one dictionary, and Futures of [f_ab] over it. *)
Definition stored0 : gmap string value := {["b"%string := obj 2]}.
Definition live0 : state := State (true, 0) [] {[0 := stored0]} ∅.
Definition fut_ab : Future callable :=
  mkFuture f_ab [obj 1; obj 2; obj 3] 0 ["a"; "b"; "c"]%string None.
Definition fut_init : Future callable :=
  mkFuture f_ab [obj 1] 1 ["a"; "b"; "c"]%string None.
Definition two_args : list (value) := [obj 5; obj 6].
Definition step0 : Future train_closure :=
  mkFuture (TrainClosure (obj 8) (obj 9) PyNone (PyBool false) (PyBool true))
           [] 1 [] None.
(** The state [create_train_step] leaves in eager mode. *)
Definition built0 : state :=
  (create_train_step (obj 120) (obj 8) (default_train_args PyNone) eager0).2.

(** A bound method of the true object [5], and a builtin. *)
Definition bound_m : callable :=
  Callable 130 false true false (Return ["self"; "x"]%string) (Return ["self"; "x"]%string)
           (Return ["x"]%string) (Some (obj 5)) echo.
Definition builtin_f : callable := plain 140 ["x"]%string first_arg.

(** The same framework with variables that have a name. *)
Definition toy_host_call_named (op : string) (args : list value)
    (kwargs : gmap string value) (w : bool * nat) : outcome string value * (bool * nat) :=
  if bool_decide (op = "getattr"%string) then (Return (PyStr "dense/kernel:0"), (w.1, S w.2))
  else toy_host_call op args kwargs w.

Definition toy_py_named : PyHost := {|
  PY2 := false;
  truthy_atom a := negb (bool_decide (a = 0));
  atom_callable := toy_callable;
  executing_eagerly w := w.1;
  is_Future_instance _ := false;
  interp_error s := s;
  takes_attributes c := negb (bool_decide (fn_id c = 140));
  host_call := toy_host_call_named;
|}.

(** Two pairs, one with a gradient and one without. *)
Definition two_pairs : value :=
  Seq KList [tuple [obj 30; obj 40]; tuple [PyNone; obj 41]].

(** A training step that writes summaries. *)
Definition summarizing : train_closure :=
  TrainClosure (obj 8) (obj 9) PyNone (PyBool true) (PyBool true).

(** The defaults of [create_train_step] with [summarize_gradients=True]. *)
Definition summarizing_args : train_args :=
  TrainArgs (PyInt 0) PyNone PyNone PyNone PyNone (PyBool true) PyNone PyNone
            (PyBool false) (PyBool true).

End Toy.

Section Theory.
Context `{HT : HostTypes} `{PH : !PyHost} `{NH : !NumpyHost}.

Notation "x <- m ;; k" := (bind m (fun x => k))
  (at level 100, m at next level, right associativity).
Notation "m ;;; k" := (bind m (fun _ => k))
  (at level 100, right associativity).

Lemma fresh_dict_None (s : state) : dicts s !! fresh (dom (dicts s)) = None.
Proof. apply not_elem_of_dom, is_fresh. Qed.

Lemma for_each_pop (E : Type) (names : list string) (l : nat) :
  ∀ (d : gmap string value) h t ds m,
    ds !! l = Some d →
    for_each (E := E) names (dict_pop l) (State h t ds m)
    = (Return tt, State h t (<[l := remove_keys names d]> ds) m).
Proof.
  induction names as [|n names IH]; intros d h t ds m Hl; simpl.
  - unfold ret. by rewrite insert_id.
  - unfold bind at 1. unfold dict_pop, bind, dict_read, dict_write; simpl.
    rewrite (lookup_total_correct _ _ _ Hl).
    rewrite (IH (delete n d)); [|by rewrite lookup_insert_eq].
    by rewrite insert_insert_eq.
Qed.

Lemma Future_call_eq {F} `{!PyCallable F} (fut : Future F)
    (args : list value) (kwargs : gmap string value) (s : state) :
  Future_call fut args kwargs s
  = let kw := call_kwargs_of fut (dicts s !!! _kwargs fut) args kwargs in
    from_callee (apply (_func_or_method fut) (call_args_of fut args) kw)
                (with_call_dict s kw).
Proof.
  destruct s as [h t ds m]. unfold Future_call, with_call_dict; simpl.
  unfold bind at 1. unfold copy_copy, bind, dict_read, dict_new; simpl.
  set (l := fresh (dom ds)).
  erewrite for_each_pop; [|by rewrite lookup_insert_eq].
  unfold dict_update, dict_read, dict_write; simpl.
  rewrite !lookup_total_insert_eq, !insert_insert_eq.
  unfold call_args_of, self_prefix.
  destruct (_self fut) as [v|]; [destruct (truthy v)|]; by destruct args.
Qed.

Lemma call_eq (f : callable) (args : list value) (kwargs : gmap string value) (s : state) :
  from_callee (call f args kwargs) s
  = let '(r, w) := fn_body f args kwargs (host s) in
    (lift_outcome r, after_call s f args kwargs w).
Proof.
  unfold from_callee, call, bind, log, on_host, after_call; simpl.
  by destruct (fn_body f args kwargs (host s)) as [[v|e] w].
Qed.

Lemma Future_call_user (fut : Future callable)
    (args : list value) (kwargs : gmap string value) (s : state) :
  Future_call fut args kwargs s
  = let kw := call_kwargs_of fut (dicts s !!! _kwargs fut) args kwargs in
    let '(r, w) := fn_body (_func_or_method fut) (call_args_of fut args) kw (host s) in
    (lift_outcome r,
     after_call (with_call_dict s kw) (_func_or_method fut) (call_args_of fut args) kw w).
Proof. rewrite Future_call_eq. simpl. by rewrite call_eq. Qed.

Lemma Future_init_eq {F} `{!PyCallable F} (f : F) (args : list value) (k : nat) (s : state) :
  Future_init f args k s
  = let l := fresh (dom (dicts s)) in
    let s' := State (host s) (trace s) (<[l := dicts s !!! k]> (dicts s)) (memo s) in
    match (if PY2 then getargspec_args f else getfullargspec_args f) with
    | Raise e => (Raise (Host e), s')
    | Return names =>
        match has_self_cls_arg f with
        | Raise e => (Raise (Host e), s')
        | Return true =>
            if is_unbound f then
              match args with
              | [] => (Raise (Own ValueError unbound_msg), s')
              | a0 :: rest => (Return (mkFuture f rest l (drop 1 names) (Some a0)), s')
              end
            else (Return (mkFuture f args l (drop 1 names) None), s')
        | Return false => (Return (mkFuture f args l names None), s')
        end
    end.
Proof.
  unfold Future_init. unfold bind at 1. unfold copy_copy, bind, dict_read, dict_new; simpl.
  unfold from_callee, of_outcome; simpl.
  destruct (if PY2 then getargspec_args f else getfullargspec_args f) as [names|e]; [|done].
  destruct (has_self_cls_arg f) as [[|]|e]; [|done|done].
  destruct (is_unbound f); [|done]. by destruct args.
Qed.

Lemma Future_new_eq {F} `{!PyCallable F} (f : F) (args : list value)
    (kwargs : gmap string value) (s : state) :
  Future_new f args kwargs s
  = if binds_twice kwargs then (Raise (Host (interp_error "TypeError")), s)
    else
    let l := kwargs_ref s kwargs in
    let s' := after_new s kwargs in
    match (if PY2 then getargspec_args f else getfullargspec_args f) with
    | Raise e => (Raise (Host e), s')
    | Return names =>
        match has_self_cls_arg f with
        | Raise e => (Raise (Host e), s')
        | Return true =>
            if is_unbound f then
              match args with
              | [] => (Raise (Own ValueError unbound_msg), s')
              | a0 :: rest => (Return (mkFuture f rest l (drop 1 names) (Some a0)), s')
              end
            else (Return (mkFuture f args l (drop 1 names) None), s')
        | Return false => (Return (mkFuture f args l names None), s')
        end
    end.
Proof.
  unfold Future_new. destruct (binds_twice kwargs); [done|].
  unfold bind at 1. unfold dict_new at 1. simpl.
  rewrite Future_init_eq. simpl. rewrite lookup_total_insert_eq. reflexivity.
Qed.

Lemma binds_twice_train_kwargs (loss total vtt : value) :
  binds_twice (train_kwargs loss total vtt) = false.
Proof. reflexivity. Qed.

Lemma Future_init_fields {F} `{!PyCallable F} (f : F) (bound : list value) (k : nat)
    (s0 s1 : state) (fut : Future F) :
  Future_init f bound k s0 = (Return fut, s1) →
  _func_or_method fut = f
  ∧ _kwargs fut = fresh (dom (dicts s0))
  ∧ dicts s1 = <[fresh (dom (dicts s0)) := dicts s0 !!! k]> (dicts s0)
  ∧ match _self fut with Some v => v :: _args fut | None => _args fut end = bound.
Proof.
  rewrite Future_init_eq. simpl.
  destruct (if PY2 then getargspec_args f else getfullargspec_args f) as [names|e]; [|done].
  destruct (has_self_cls_arg f) as [[|]|e]; [|by intros [= <- <-]|done].
  destruct (is_unbound f); [|by intros [= <- <-]].
  destruct bound as [|a0 rest]; [done|]. by intros [= <- <-].
Qed.

(** C8. A [Future] whose stored positional arguments number [n > 0], called
    with [k] positional arguments, [0 < k < n], calls the function on the
    [k] new ones alone (after [self] or [cls], when one is stored and true):
    no stored positional argument is passed.  The keyword arguments are the
    stored ones less the names of the first [k] parameters, updated with
    the new ones. *)
Theorem Future_call_positional_all_or_nothing {F} `{!PyCallable F}
    (fut : Future F) (args : list value) (kwargs : gmap string value)
    (s : state) (n k : nat) :
  length (_args fut) = n →
  length args = k →
  0 < k < n →
  Future_call fut args kwargs s
  = let kw := kwargs ∪ remove_keys (take k (_arg_names fut)) (dicts s !!! _kwargs fut) in
    from_callee (apply (_func_or_method fut) (self_prefix fut ++ args) kw)
                (with_call_dict s kw).
Proof.
  intros _ Hk [Hpos _]. rewrite Future_call_eq. simpl.
  unfold call_kwargs_of, call_args_of. rewrite Hk.
  destruct args; [simpl in Hk; lia|done].
Qed.

(** C10. [Future.__init__] stores a copy of the dictionary of keyword
    arguments it is given, and a call works on a copy of that copy: it
    changes no dictionary that was there before, the one of the [Future]
    included, and two calls in a row with the same arguments call the
    function with the same positional and keyword arguments. *)
Theorem Future_call_does_not_mutate (f : callable) (bound : list value) (k : nat)
    (s0 s1 : state) (fut : Future callable)
    (args : list value) (kwargs : gmap string value) (s : state) :
  k ∈ dom (dicts s0) →
  Future_init f bound k s0 = (Return fut, s1) →
  _kwargs fut ∈ dom (dicts s) →
  (_kwargs fut ≠ k
   ∧ dicts s1 !! _kwargs fut = dicts s0 !! k
   ∧ dicts s1 !! k = dicts s0 !! k)
  ∧ let s' := (Future_call fut args kwargs s).2 in
    let s'' := (Future_call fut args kwargs s').2 in
    (∀ l, l ∈ dom (dicts s) → dicts s' !! l = dicts s !! l)
    ∧ dicts s' !! _kwargs fut = dicts s !! _kwargs fut
    ∧ dicts s'' !! _kwargs fut = dicts s !! _kwargs fut
    ∧ ∃ e, e = ECall (fn_id f) (call_args_of fut args)
                     (call_kwargs_of fut (dicts s !!! _kwargs fut) args kwargs)
           ∧ trace s' = trace s ++ [e]
           ∧ trace s'' = trace s' ++ [e].
Proof.
  intros Hk Hinit Hlive.
  destruct (Future_init_fields _ _ _ _ _ _ Hinit) as (Hf & Hl & Hds & _).
  assert (Hfresh : ∀ (s : state) l, l ∈ dom (dicts s) → l ≠ fresh (dom (dicts s))).
  { intros s2 l Hin ->. by apply (is_fresh (dom (dicts s2))). }
  split.
  - rewrite Hds, Hl. apply elem_of_dom in Hk as [d Hd].
    assert (k ≠ fresh (dom (dicts s0))) by (apply Hfresh, elem_of_dom; eauto).
    split; [done|]. rewrite lookup_insert_eq, lookup_insert_ne by done.
    by rewrite (lookup_total_correct _ _ _ Hd).
  - simpl.
    assert (Hstep : ∀ s2, _kwargs fut ∈ dom (dicts s2) →
      let s3 := (Future_call fut args kwargs s2).2 in
      (∀ l, l ∈ dom (dicts s2) → dicts s3 !! l = dicts s2 !! l)
      ∧ trace s3 = trace s2 ++
          [ECall (fn_id f) (call_args_of fut args)
                 (call_kwargs_of fut (dicts s2 !!! _kwargs fut) args kwargs)]).
    { intros s2 Hin. rewrite Future_call_user. simpl. rewrite Hf.
      destruct (fn_body f _ _ (host s2)) as [r w]. simpl. split; [|done].
      intros l Hl'. rewrite lookup_insert_ne; [done|]. symmetry. by apply Hfresh. }
    destruct (Hstep s Hlive) as [Hd1 Ht1].
    set (s' := (Future_call fut args kwargs s).2) in *.
    assert (Hlive' : _kwargs fut ∈ dom (dicts s')).
    { apply elem_of_dom. rewrite Hd1 by done. by apply elem_of_dom. }
    destruct (Hstep s' Hlive') as [Hd2 Ht2].
    assert (Hsame : dicts s' !!! _kwargs fut = dicts s !!! _kwargs fut).
    { unfold lookup_total, map_lookup_total. by rewrite Hd1. }
    repeat split; [done|by apply Hd1|by rewrite Hd2, Hd1|].
    eexists; split; [done|]. split; [done|]. by rewrite Ht2, Hsame.
Qed.


(** *** Structures *)

Lemma value_ind_nested (P : value → Prop) :
  P PyNone → (∀ b, P (PyBool b)) → (∀ z, P (PyInt z)) → (∀ str, P (PyStr str)) →
  (∀ a, P (Atom a)) → (∀ k xs, Forall P xs → P (Seq k xs)) → P Lambda_identity →
  ∀ v, P v.
Proof.
  intros HN HB HI HS HA HQ HL.
  fix IH 1.
  intros [ | b | z | str | a | k xs | ];
    [apply HN | apply HB | apply HI | apply HS | apply HA | | apply HL].
  apply HQ. induction xs as [|x xs IHxs]; constructor; [apply IH|apply IHxs].
Qed.

Lemma map_structure_o_Seq {E} (f : value → outcome E value) (k : seq_kind) (xs : list value) :
  map_structure_o f (Seq k xs)
  = match mapM_o (map_structure_o f) xs with
    | Return ys => Return (Seq k ys)
    | Raise e => Raise e
    end.
Proof.
  simpl. match goal with |- match ?a with _ => _ end = match ?b with _ => _ end =>
    assert (a = b) as ->; [|done] end.
  induction xs as [|x xs IH]; simpl; [done|].
  destruct (map_structure_o f x); [|done]. by rewrite IH.
Qed.

Lemma mapM_pure {E A B} (f : A → outcome E B) (xs : list A) (s : state) :
  mapM (fun x => of_outcome (f x)) xs s = (mapM_o f xs, s).
Proof.
  induction xs as [|x xs IH]; simpl; [done|].
  unfold bind at 1. unfold of_outcome at 1.
  destruct (f x) as [y|e]; [|done]. unfold bind, ret. rewrite IH.
  by destruct (mapM_o f xs).
Qed.

Lemma map_structure_Seq {E} (f : value → M E value) (k : seq_kind) (xs : list value) :
  map_structure f (Seq k xs)
  = (ys <- mapM (map_structure f) xs ;; ret (Seq k ys)).
Proof.
  simpl. f_equal. induction xs as [|x xs IH]; simpl; [done|]. by rewrite IH.
Qed.

Lemma map_structure_pure {E} (f : value → outcome E value) (v : value) (s : state) :
  map_structure (fun x => of_outcome (f x)) v s = (map_structure_o f v, s).
Proof.
  revert s. induction v as [ | | | | | k xs IH | ] using value_ind_nested; intros s; try done.
  rewrite map_structure_o_Seq, map_structure_Seq. unfold bind at 1.
  assert (mapM (map_structure (λ x, of_outcome (f x))) xs s
          = (mapM_o (map_structure_o f) xs, s)) as ->;
    [|by destruct (mapM_o _ xs)].
  revert s. induction IH as [|x xs Hx _ IHxs]; intros s; simpl; [done|].
  unfold bind at 1. rewrite Hx. destruct (map_structure_o f x); [|done].
  unfold bind, ret. rewrite IHxs. by destruct (mapM_o _ xs).
Qed.

(** *** np_function: one call *)

Lemma wrapper_eager_eq (func : callable) (get_output_dtypes : value)
    (args : list value) (kwargs : gmap string value) (s : state) :
  executing_eagerly (host s) = true →
  wrapper func get_output_dtypes args kwargs s
  = match mapM_o (map_structure_o tensor_numpy) args with
    | Raise e => (Raise (Host e), s)
    | Return np_args =>
        let '(r, w) := fn_body func np_args kwargs (host s) in
        (match r with
         | Return result => lift_outcome (map_structure_o convert result)
         | Raise e => Raise (Host e)
         end,
         after_call s func np_args kwargs w)
    end.
Proof.
  intros Hmode. unfold wrapper. unfold bind at 1. unfold get_host at 1. rewrite Hmode.
  unfold bind at 1. unfold from_callee at 1. rewrite map_structure_pure.
  unfold tuple. rewrite map_structure_o_Seq.
  destruct (mapM_o (map_structure_o tensor_numpy) args) as [np_args|e]; [|done].
  simpl unpack. unfold bind at 1. rewrite call_eq.
  destruct (fn_body func np_args kwargs (host s)) as [[result|e] w]; [|done]. simpl.
  unfold from_callee. rewrite map_structure_pure.
  by destruct (map_structure_o convert result).
Qed.

Lemma wrapper_graph_eq (func : callable) (get_output_dtypes : value)
    (args : list value) (kwargs : gmap string value) (s : state) :
  executing_eagerly (host s) = false →
  wrapper func get_output_dtypes args kwargs s
  = match input_dtypes_of args with
    | Raise e => (Raise (Host e), s)
    | Return key =>
        match memo_entry s (fn_id func) key with
        | Some entry => py_function_step func args kwargs entry s
        | None =>
            match inference func get_output_dtypes args kwargs key
                            (at_miss s (fn_id func) key) with
            | (Raise e, s2) => (Raise (Host e), s2)
            | (Return entry, s2) =>
                py_function_step func args kwargs entry
                                 (with_entry s2 (fn_id func) key entry)
            end
        end
    end.
Proof.
  intros Hmode. unfold wrapper. unfold bind at 1. unfold get_host at 1. rewrite Hmode.
  unfold bind at 1. unfold from_callee at 1. rewrite mapM_pure.
  unfold input_dtypes_of.
  destruct (mapM_o get_dtype (flatten (tuple args))) as [key|e]; [|done].
  unfold bind at 1. unfold memo_get at 1. unfold memo_entry.
  destruct ((memo s !!! fn_id func) !! key) as [entry|] eqn:Hm.
  - unfold bind at 1. unfold ret at 1. unfold bind at 1. unfold memo_get at 1. rewrite Hm.
    unfold py_function_step, bind, log, from_callee, on_host. simpl.
    by destruct (py_function _ _ _ _ _) as [[v|e] w].
  - unfold bind at 1. unfold bind at 1. unfold log at 1.
    unfold bind at 1. unfold from_callee at 1.
    change (match get_output_dtypes with
            | PyNone => _ | PyBool _ => _ | PyInt _ => _ | PyStr _ => _
            | Atom _ => _ | Seq _ _ => _ | Lambda_identity => _ end)
      with (inference func get_output_dtypes args kwargs key).
    change (State (host s) (trace s ++ [EMiss (fn_id func) key]) (dicts s) (memo s))
      with (at_miss s (fn_id func) key).
    destruct (inference _ _ _ _ _ _) as [[entry|e] s2]; [|done].
    unfold memo_set at 1. unfold bind at 1. unfold memo_get at 1. simpl.
    rewrite lookup_total_insert_eq, lookup_insert_eq.
    unfold py_function_step, with_entry, bind, log, from_callee, on_host. simpl.
    by destruct (py_function _ _ _ _ _) as [[v|e] w].
Qed.

(** C7, as amended.  In eager mode [wrapper] turns every positional
    argument into its numpy value, leaf by leaf, calls the function on
    these and on the keyword arguments as they are, and turns every leaf of
    the result that is not [None] into a tensor. *)
Theorem wrapper_eager_converts_positionals (func : callable) (get_output_dtypes : value)
    (args : list value) (kwargs : gmap string value) (s : state) :
  executing_eagerly (host s) = true →
  wrapper func get_output_dtypes args kwargs s
  = match mapM_o (map_structure_o tensor_numpy) args with
    | Raise e => (Raise (Host e), s)
    | Return np_args =>
        let '(r, w) := fn_body func np_args kwargs (host s) in
        (match r with
         | Return result => lift_outcome (map_structure_o convert result)
         | Raise e => Raise (Host e)
         end,
         after_call s func np_args kwargs w)
    end.
Proof. apply wrapper_eager_eq. Qed.

(** *** np_function: memo and misses *)

Lemma misses_snoc (fid : nat) (key : list atom) (t : list event) (e : event) :
  misses fid key (t ++ [e]) = misses fid key t + (if is_miss fid key e then 1 else 0).
Proof.
  unfold misses. rewrite filter_app, length_app. f_equal.
  rewrite filter_cons, filter_nil. by destruct (is_miss fid key e); case_decide.
Qed.

Lemma quiet_ret {E A} (a : A) : quiet (E := E) (ret a).
Proof. by intros s. Qed.

Lemma quiet_raise {E A} (e : E) : quiet (A := A) (raise e).
Proof. by intros s. Qed.

Lemma quiet_of_outcome {E A} (o : outcome E A) : quiet (of_outcome o).
Proof. by intros s. Qed.

Lemma quiet_bind {E A B} (m : M E A) (k : A → M E B) :
  quiet m → (∀ a, quiet (k a)) → quiet (bind m k).
Proof.
  intros Hm Hk s. unfold bind. specialize (Hm s).
  destruct (m s) as [[a|e] s1]; simpl in *; [|done].
  destruct (Hk a s1) as [Hk1 Hk2]. destruct Hm as [Hm1 Hm2].
  split; [congruence|]. intros fid key. by rewrite Hk2, Hm2.
Qed.

Lemma quiet_from_callee {A} (m : M host_exn A) : quiet m → quiet (from_callee m).
Proof.
  intros Hm s. specialize (Hm s). unfold from_callee.
  by destruct (m s) as [[a|e] s1].
Qed.

Lemma quiet_call (f : callable) (args : list value) (kwargs : gmap string value) :
  quiet (call f args kwargs).
Proof.
  intros s. unfold call, bind, log, on_host. simpl.
  destruct (fn_body f args kwargs (host s)) as [r w]. simpl.
  split; [done|]. intros fid key. rewrite misses_snoc. simpl. lia.
Qed.

Lemma quiet_py_call (v : value) (args : list value) (kwargs : gmap string value) :
  quiet (py_call v args kwargs).
Proof.
  unfold py_call. destruct (py_callable v); [apply quiet_call|apply quiet_raise].
Qed.

Lemma quiet_pure_map {E} (f : value → outcome E value) (v : value) :
  quiet (map_structure (fun x => of_outcome (f x)) v).
Proof. intros s. by rewrite map_structure_pure. Qed.

Lemma quiet_inference (func : callable) (get_output_dtypes : value)
    (args : list value) (kwargs : gmap string value) (key : list atom) :
  quiet (inference func get_output_dtypes args kwargs key).
Proof.
  assert (Hc : ∀ zs, quiet (compute_output_dtypes func kwargs zs)).
  { intros zs. unfold compute_output_dtypes.
    apply quiet_bind; [apply quiet_call|]. intros result.
    apply quiet_bind; [apply quiet_pure_map|]. intros d. apply quiet_ret. }
  unfold inference.
  destruct get_output_dtypes; try apply quiet_py_call.
  apply quiet_bind; [apply quiet_pure_map|]. intros zs. apply Hc.
Qed.

Lemma memo_entry_with_entry (s : state) (fid : nat) (key key' : list atom) (entry : value) :
  memo_entry (with_entry s fid key entry) fid key'
  = if decide (key = key') then Some entry else memo_entry s fid key'.
Proof.
  unfold memo_entry, with_entry. simpl. rewrite lookup_total_insert_eq.
  by rewrite lookup_insert.
Qed.

Lemma py_function_step_frame (func : callable) (args : list value)
    (kwargs : gmap string value) (Tout : value) (s : state) :
  let s' := (py_function_step func args kwargs Tout s).2 in
  memo s' = memo s ∧ ∀ fid key, misses fid key (trace s') = misses fid key (trace s).
Proof.
  unfold py_function_step. destruct (py_function _ _ _ _ _) as [r w]. simpl.
  split; [done|]. intros fid key. rewrite misses_snoc. simpl. lia.
Qed.

(** One call of [wrapper]: entries stay, a stored tuple sees no new miss, and
    no tuple sees more than one. *)
Lemma wrapper_step (func : callable) (get_output_dtypes : value)
    (args : list value) (kwargs : gmap string value) (s : state) :
  let s' := (wrapper func get_output_dtypes args kwargs s).2 in
  (∀ key e, memo_entry s (fn_id func) key = Some e →
            memo_entry s' (fn_id func) key = Some e)
  ∧ (∀ key, is_Some (memo_entry s (fn_id func) key) →
            misses (fn_id func) key (trace s') = misses (fn_id func) key (trace s))
  ∧ (∀ key, misses (fn_id func) key (trace s') ≤ S (misses (fn_id func) key (trace s))).
Proof.
  assert (Hsame : ∀ s' : state, memo s' = memo s →
    (∀ fid key, misses fid key (trace s') = misses fid key (trace s)) →
    (∀ key e, memo_entry s (fn_id func) key = Some e →
              memo_entry s' (fn_id func) key = Some e)
    ∧ (∀ key, is_Some (memo_entry s (fn_id func) key) →
              misses (fn_id func) key (trace s') = misses (fn_id func) key (trace s))
    ∧ (∀ key, misses (fn_id func) key (trace s') ≤ S (misses (fn_id func) key (trace s)))).
  { intros s' Hm Ht. unfold memo_entry. rewrite Hm. repeat split; [done|auto|].
    intros key. rewrite Ht. lia. }
  simpl. destruct (executing_eagerly (host s)) eqn:Hmode.
  - rewrite wrapper_eager_eq by done.
    destruct (mapM_o _ args) as [np_args|e]; [|by apply Hsame].
    destruct (fn_body func np_args kwargs (host s)) as [r w]. cbn [snd].
    apply Hsame; [done|]. intros fid key. unfold after_call. cbn [trace].
    rewrite misses_snoc. simpl. lia.
  - rewrite wrapper_graph_eq by done.
    destruct (input_dtypes_of args) as [key0|e]; [|by apply Hsame].
    destruct (memo_entry s (fn_id func) key0) as [entry|] eqn:Hm.
    + destruct (py_function_step_frame func args kwargs entry s). by apply Hsame.
    + destruct (quiet_inference func get_output_dtypes args kwargs key0
                  (at_miss s (fn_id func) key0)) as [Hq1 Hq2].
      destruct (inference _ _ _ _ _ _) as [[entry|e] s2]; cbn [snd] in *.
      * destruct (py_function_step_frame func args kwargs entry
                    (with_entry s2 (fn_id func) key0 entry)) as [Hp1 Hp2].
        set (s' := (py_function_step _ _ _ _ _).2) in *.
        assert (Hme : ∀ key, memo_entry s' (fn_id func) key
                 = if decide (key0 = key) then Some entry
                   else memo_entry s (fn_id func) key).
        { intros key.
          transitivity (memo_entry (with_entry s2 (fn_id func) key0 entry) (fn_id func) key).
          { unfold memo_entry. by rewrite Hp1. }
          rewrite memo_entry_with_entry. unfold memo_entry. by rewrite Hq1. }
        assert (Hmi : ∀ key, misses (fn_id func) key (trace s')
                 = misses (fn_id func) key (trace s)
                   + (if decide (key0 = key) then 1 else 0)).
        { intros key. rewrite Hp2. unfold with_entry. cbn [trace]. rewrite Hq2.
          unfold at_miss. cbn [trace]. rewrite misses_snoc.
          cbn [is_miss]. rewrite bool_decide_true by done.
          case_decide; [by rewrite bool_decide_true|by rewrite bool_decide_false]. }
        repeat split.
        -- intros key e He. rewrite Hme. case_decide; [congruence|done].
        -- intros key [e He]. rewrite Hmi. case_decide; [congruence|lia].
        -- intros key. rewrite Hmi. case_decide; lia.
      * assert (Hmi : ∀ key, misses (fn_id func) key (trace s2)
                 = misses (fn_id func) key (trace s)
                   + (if decide (key0 = key) then 1 else 0)).
        { intros key. rewrite Hq2. unfold at_miss. cbn [trace]. rewrite misses_snoc.
          cbn [is_miss]. rewrite bool_decide_true by done.
          case_decide; [by rewrite bool_decide_true|by rewrite bool_decide_false]. }
        repeat split.
        -- intros key e' He. unfold memo_entry in *. by rewrite Hq1.
        -- intros key [e' He]. rewrite Hmi. case_decide; [congruence|lia].
        -- intros key. rewrite Hmi. case_decide; lia.
Qed.

Lemma call_run (f : callable) (args : list value) (kwargs : gmap string value) (s : state) :
  call f args kwargs s
  = let '(r, w) := fn_body f args kwargs (host s) in (r, after_call s f args kwargs w).
Proof.
  unfold call, bind, log, on_host, after_call; simpl.
  by destruct (fn_body f args kwargs (host s)) as [[v|e] w].
Qed.

Lemma inference_returns (func : callable) (get_output_dtypes : value)
    (args : list value) (kwargs : gmap string value) (key : list atom)
    (s : state) (entry : value) :
  output_dtypes_of func get_output_dtypes args kwargs key (host s) = Some entry →
  ∃ s2, inference func get_output_dtypes args kwargs key s = (Return entry, s2).
Proof.
  unfold output_dtypes_of, inference.
  assert (Hg : ∀ g, match py_callable g with
                    | Some c => match fn_body c (Atom <$> key) ∅ (host s) with
                                | (Return e, _) => Some e
                                | (Raise _, _) => None
                                end
                    | None => None
                    end = Some entry →
               ∃ s2, py_call g (Atom <$> key) ∅ s = (Return entry, s2)).
  { intros g. unfold py_call. destruct (py_callable g) as [c|]; [|done].
    rewrite call_run. destruct (fn_body c _ _ (host s)) as [[e|e] w]; [|done].
    intros [= ->]. eauto. }
  destruct get_output_dtypes; try apply Hg.
  unfold bind at 1. rewrite map_structure_pure. unfold tuple.
  rewrite map_structure_o_Seq.
  destruct (mapM_o (map_structure_o ones_like) args) as [zs|e]; [|done].
  simpl unpack. unfold compute_output_dtypes. unfold bind at 1. rewrite call_run.
  destruct (fn_body func zs kwargs (host s)) as [[result|e] w]; [|done].
  unfold bind at 1. rewrite map_structure_pure.
  destruct (map_structure_o dtype_value result) as [d|e]; [|done].
  intros [= <-]. unfold ret. eauto.
Qed.

(** C1, as amended.  In graph mode a call that finds no entry for its
    tuple of input dtypes stores under that tuple the output dtypes (not the
    shapes): the flattened dtypes of what the function returns on arrays of
    ones like the arguments, or what [get_output_dtypes] returns on the
    input dtypes.  A later graph-mode call with the same tuple of input
    dtypes starts no inference and passes the stored entry to
    [tf.py_function] as [Tout]. *)
Theorem memo_entry_records_output_dtypes (func : callable) (get_output_dtypes : value)
    (args : list value) (kwargs : gmap string value) (key : list atom)
    (s : state) (entry : value) :
  executing_eagerly (host s) = false →
  input_dtypes_of args = Return key →
  memo_entry s (fn_id func) key = None →
  output_dtypes_of func get_output_dtypes args kwargs key (host s) = Some entry →
  memo_entry (wrapper func get_output_dtypes args kwargs s).2 (fn_id func) key = Some entry
  ∧ ∀ (args' : list value) (kwargs' : gmap string value) (s2 : state),
      executing_eagerly (host s2) = false →
      input_dtypes_of args' = Return key →
      memo_entry s2 (fn_id func) key = Some entry →
      wrapper func get_output_dtypes args' kwargs' s2
      = py_function_step func args' kwargs' entry s2.
Proof.
  intros Hmode Hkey Hmiss Hout. split.
  - rewrite wrapper_graph_eq by done. rewrite Hkey, Hmiss.
    destruct (inference_returns func get_output_dtypes args kwargs key
                (at_miss s (fn_id func) key) entry Hout) as [s2 ->].
    destruct (py_function_step_frame func args kwargs entry
                (with_entry s2 (fn_id func) key entry)) as [Hp _].
    unfold memo_entry. rewrite Hp. fold (memo_entry (with_entry s2 (fn_id func) key entry)
                                            (fn_id func) key).
    rewrite memo_entry_with_entry. by case_decide.
  - intros args' kwargs' s2 Hmode2 Hkey2 Hhit.
    rewrite wrapper_graph_eq by done. by rewrite Hkey2, Hhit.
Qed.

(** A graph-mode call that finds no entry starts one inference. *)
Lemma wrapper_miss_counts (func : callable) (get_output_dtypes : value)
    (args : list value) (kwargs : gmap string value) (key : list atom) (s : state) :
  executing_eagerly (host s) = false →
  input_dtypes_of args = Return key →
  memo_entry s (fn_id func) key = None →
  misses (fn_id func) key (trace (wrapper func get_output_dtypes args kwargs s).2)
  = S (misses (fn_id func) key (trace s)).
Proof.
  intros Hmode Hkey Hm. rewrite wrapper_graph_eq by done. rewrite Hkey, Hm.
  destruct (quiet_inference func get_output_dtypes args kwargs key
              (at_miss s (fn_id func) key)) as [_ Hq].
  assert (Hmiss : misses (fn_id func) key (trace (at_miss s (fn_id func) key))
                  = S (misses (fn_id func) key (trace s))).
  { unfold at_miss. cbn [trace]. rewrite misses_snoc. cbn [is_miss].
    rewrite !bool_decide_true by done. simpl. lia. }
  destruct (inference _ _ _ _ _ _) as [[entry|e] s2]; cbn [snd] in *.
  - destruct (py_function_step_frame func args kwargs entry
                (with_entry s2 (fn_id func) key entry)) as [_ Hp].
    rewrite Hp. unfold with_entry. cbn [trace]. by rewrite Hq.
  - by rewrite Hq.
Qed.

Lemma run_calls_step (func : callable) (get_output_dtypes : value)
    (calls : list (list value * gmap string value)) (s : state) :
  let s' := run_calls func get_output_dtypes calls s in
  (∀ key e, memo_entry s (fn_id func) key = Some e →
            memo_entry s' (fn_id func) key = Some e)
  ∧ (∀ key, is_Some (memo_entry s (fn_id func) key) →
            misses (fn_id func) key (trace s') = misses (fn_id func) key (trace s)).
Proof.
  revert s. induction calls as [|[args kwargs] calls IH]; intros s; simpl; [done|].
  destruct (wrapper_step func get_output_dtypes args kwargs s) as (H1 & H2 & _).
  destruct (IH (wrapper func get_output_dtypes args kwargs s).2) as [I1 I2].
  split.
  - intros key e He. by apply I1, H1.
  - intros key [e He]. rewrite I2; [by apply H2|]. exists e. by apply H1.
Qed.

(** C6, as amended.  Over any series of calls of a decorated function,
    whether they return or raise: an entry of the memo stays as it is; once
    a tuple of input dtypes has an entry no inference starts for it again;
    an inference that returns stores its result under the tuple; and a
    graph-mode call whose tuple has an entry passes that entry as [Tout].
    So the inference returns at most once for each tuple.  An inference
    that raises makes the call raise the same exception and stores nothing:
    the memos are as they were, and the next graph-mode call with that
    tuple finds no entry and runs the inference again. *)
Theorem memo_only_grows_and_is_reused (func : callable) (get_output_dtypes : value)
    (calls : list (list value * gmap string value)) (s : state) :
  let s' := run_calls func get_output_dtypes calls s in
  (∀ key e, memo_entry s (fn_id func) key = Some e →
            memo_entry s' (fn_id func) key = Some e)
  ∧ (∀ key, is_Some (memo_entry s (fn_id func) key) →
            misses (fn_id func) key (trace s') = misses (fn_id func) key (trace s))
  ∧ (∀ args kwargs key entry s2,
       executing_eagerly (host s') = false →
       input_dtypes_of args = Return key →
       memo_entry s' (fn_id func) key = None →
       inference func get_output_dtypes args kwargs key (at_miss s' (fn_id func) key)
       = (Return entry, s2) →
       memo_entry (wrapper func get_output_dtypes args kwargs s').2 (fn_id func) key
       = Some entry)
  ∧ (∀ args kwargs key entry,
       executing_eagerly (host s') = false →
       input_dtypes_of args = Return key →
       memo_entry s' (fn_id func) key = Some entry →
       wrapper func get_output_dtypes args kwargs s'
       = py_function_step func args kwargs entry s')
  ∧ (∀ args kwargs key e s2,
       executing_eagerly (host s') = false →
       input_dtypes_of args = Return key →
       memo_entry s' (fn_id func) key = None →
       inference func get_output_dtypes args kwargs key (at_miss s' (fn_id func) key)
       = (Raise e, s2) →
       wrapper func get_output_dtypes args kwargs s' = (Raise (Host e), s2)
       ∧ memo s2 = memo s'
       ∧ memo_entry s2 (fn_id func) key = None
       ∧ ∀ args' kwargs',
           executing_eagerly (host s2) = false →
           input_dtypes_of args' = Return key →
           wrapper func get_output_dtypes args' kwargs' s2
           = match inference func get_output_dtypes args' kwargs' key
                             (at_miss s2 (fn_id func) key) with
             | (Raise e', s3) => (Raise (Host e'), s3)
             | (Return entry, s3) =>
                 py_function_step func args' kwargs' entry
                                  (with_entry s3 (fn_id func) key entry)
             end).
Proof.
  simpl. destruct (run_calls_step func get_output_dtypes calls s) as [H1 H2].
  split; [done|]. split; [done|]. split; [|split].
  3: {
    intros args kwargs key e s2 Hmode Hkey Hmiss Hinf.
    destruct (quiet_inference func get_output_dtypes args kwargs key
                (at_miss (run_calls func get_output_dtypes calls s) (fn_id func) key))
      as [Hq _].
    rewrite Hinf in Hq. cbn [snd at_miss memo] in Hq.
    assert (Hnone : memo_entry s2 (fn_id func) key = None)
      by (unfold memo_entry in *; by rewrite Hq).
    split; [|split; [done|split; [done|]]].
    - rewrite wrapper_graph_eq by done. by rewrite Hkey, Hmiss, Hinf.
    - intros args' kwargs' Hmode2 Hkey2.
      rewrite wrapper_graph_eq by done. by rewrite Hkey2, Hnone. }
  - intros args kwargs key entry s2 Hmode Hkey Hmiss Hinf.
    rewrite wrapper_graph_eq by done. rewrite Hkey, Hmiss, Hinf.
    destruct (py_function_step_frame func args kwargs entry
                (with_entry s2 (fn_id func) key entry)) as [Hp _].
    unfold memo_entry. rewrite Hp. fold (memo_entry (with_entry s2 (fn_id func) key entry)
                                            (fn_id func) key).
    rewrite memo_entry_with_entry. by case_decide.
  - intros args kwargs key entry Hmode Hkey Hhit.
    rewrite wrapper_graph_eq by done. by rewrite Hkey, Hhit.
Qed.

(** *** create_train_step: the guards *)

Lemma tf_run (op : string) (args : list value) (kwargs : gmap string value) (s : state) :
  tf op args kwargs s
  = let '(r, w) := host_call op args kwargs (host s) in (r, after_tf s op args kwargs w).
Proof.
  unfold tf, bind, log, on_host, after_tf; simpl.
  by destruct (host_call op args kwargs (host s)) as [[v|e] w].
Qed.

Lemma create_train_step_unfold (loss optimizer : value) (a : train_args) :
  create_train_step loss optimizer a
  = if negb (is_callable (effective_total_loss_fn a))
    then raise (Own ValueError total_loss_fn_msg)
    else
      w <- get_host ;;
      if negb (executing_eagerly w) then
        loss <- (if is_callable loss then from_callee (py_call loss [] ∅) else ret loss) ;;
        variables_to_train <-
          (if is_callable (variables_to_train a)
           then from_callee (py_call (variables_to_train a) [] ∅)
           else ret (variables_to_train a)) ;;
        ctx <- from_callee (tf "tf.control_dependencies" [Seq KList (flatten loss)] ∅) ;;
        train_op <- from_callee (with_ctx ctx (fun _ =>
            total_loss <- py_call (effective_total_loss_fn a) [loss] ∅ ;;
            tf "tf.contrib.training.create_train_op" [total_loss; optimizer]
               (create_train_op_kwargs a variables_to_train))) ;;
        ctx <- from_callee (tf "tf.control_dependencies" [Seq KList [train_op]] ∅) ;;
        r <- from_callee (with_ctx ctx (fun _ =>
            map_structure (fun t => tf "tf.identity" [t; PyStr "loss"] ∅) loss)) ;;
        ret (GraphLoss r)
      else
        global_step <-
          (if is_USE_GLOBAL_STEP (global_step a)
           then from_callee (tf "tf.train.get_or_create_global_step" [] ∅)
           else ret (global_step a)) ;;
        if negb (is_callable loss) then raise (Own ValueError loss_msg)
        else
        (if is_Future_instance loss then ret tt
         else from_callee
                (tf "tf.logging.warning"
                    [PyStr "loss should be an instance of eager_utils.Future"] ∅) ;;; ret tt) ;;;
        fut <- Future_new
          (TrainClosure optimizer global_step (transform_grads_fn a)
                        (summarize_gradients a) (check_numerics a))
          []
          (<["_loss"%string := loss]>
           (<["_total_loss_fn"%string := effective_total_loss_fn a]>
            (<["_variables_to_train"%string := variables_to_train a]> ∅))) ;;
        ret (EagerStep fut).
Proof. reflexivity. Qed.



(** *** Runs that return *)

Lemma bind_Return {E A B} (m : M E A) (k : A → M E B) (s s' : state) (b : B) :
  bind m k s = (Return b, s') →
  ∃ a s1, m s = (Return a, s1) ∧ k a s1 = (Return b, s').
Proof. unfold bind. destruct (m s) as [[a|e] s1]; [eauto|done]. Qed.

Lemma ret_Return {E A} (a b : A) (s s' : state) :
  ret (E := E) a s = (Return b, s') → a = b ∧ s = s'.
Proof. by intros [= -> ->]. Qed.

Lemma from_callee_Return {A} (m : M host_exn A) (s s' : state) (a : A) :
  from_callee m s = (Return a, s') → m s = (Return a, s').
Proof. unfold from_callee. destruct (m s) as [[a'|e] s1]; [by intros [= -> ->]|done]. Qed.

Lemma tf_Return (op : string) (args : list value) (kwargs : gmap string value)
    (s s' : state) (v : value) :
  tf op args kwargs s = (Return v, s') →
  s' = after_tf s op args kwargs (host s')
  ∧ host_call op args kwargs (host s) = (Return v, host s').
Proof.
  rewrite tf_run. destruct (host_call op args kwargs (host s)) as [[v'|e] w]; [|done].
  by intros [= -> <-].
Qed.

Lemma py_call_Return (f : value) (args : list value) (kwargs : gmap string value)
    (s s' : state) (v : value) :
  py_call f args kwargs s = (Return v, s') →
  ∃ c, py_callable f = Some c
       ∧ s' = after_call s c args kwargs (host s')
       ∧ fn_body c args kwargs (host s) = (Return v, host s').
Proof.
  unfold py_call. destruct (py_callable f) as [c|]; [|done].
  rewrite call_run.
  destruct (fn_body c args kwargs (host s)) as [[v'|e] w] eqn:Hbody; [|done].
  intros [= -> <-]. by exists c.
Qed.


Lemma pack_Seq (k : seq_kind) (xs flat : list value) :
  pack (Seq k xs) flat
  = match pack_list xs flat with
    | None => None
    | Some (ys, rest) => Some (Seq k ys, rest)
    end.
Proof.
  simpl. match goal with |- match ?a with _ => _ end = match ?b with _ => _ end =>
    assert (a = b) as ->; [|done] end.
  revert flat. induction xs as [|x xs IH]; intros flat; simpl; [done|].
  destruct (pack x flat) as [[y flat']|]; [|done]. by rewrite IH.
Qed.

Lemma flatten_Seq (k : seq_kind) (xs : list value) :
  flatten (Seq k xs) = concat (flatten <$> xs).
Proof.
  simpl. induction xs as [|x xs IH]; [done|]. simpl. by rewrite IH.
Qed.

(** Refilling a structure with its own leaves gives it back. *)
Lemma pack_flatten (v : value) (rest : list value) :
  pack v (flatten v ++ rest) = Some (v, rest).
Proof.
  revert rest. induction v as [ | | | | | k xs IH | ] using value_ind_nested;
    intros rest; try done.
  rewrite pack_Seq, flatten_Seq.
  assert (pack_list xs (concat (flatten <$> xs) ++ rest) = Some (xs, rest)) as ->; [|done].
  induction IH as [|x xs Hx _ IHxs]; [done|].
  rewrite fmap_cons. cbn [concat pack_list]. rewrite <- app_assoc, Hx. by rewrite IHxs.
Qed.

(** *** train_step *)

Lemma pop_key_run (name : string) (kwargs : gmap string value) (v : value) :
  kwargs !! name = Some v →
  pop_key name kwargs = ret (v, delete name kwargs).
Proof. intros H. unfold pop_key. by rewrite H. Qed.

Lemma trace_after_tf (s : state) op args kwargs w :
  trace (after_tf s op args kwargs w) = trace s ++ [EHost op args kwargs].
Proof. done. Qed.



(** *** create_train_step: eager mode *)

Lemma has_self_cls_arg_train_step (cl : train_closure) :
  has_self_cls_arg cl = Return false.
Proof. unfold has_self_cls_arg. simpl. by destruct PY2. Qed.

Lemma Future_new_train_step (cl : train_closure) (kwargs : gmap string value) (s : state) :
  binds_twice kwargs = false →
  Future_new cl [] kwargs s
  = (Return (mkFuture cl [] (kwargs_ref s kwargs) [] None), after_new s kwargs).
Proof.
  intros Hkw. rewrite Future_new_eq, Hkw.
  rewrite has_self_cls_arg_train_step. simpl. by destruct PY2.
Qed.

Lemma create_train_step_eager_Return (loss optimizer : value) (a : train_args)
    (s s1 : state) (r : train_result) :
  executing_eagerly (host s) = true →
  create_train_step loss optimizer a s = (Return r, s1) →
  ∃ fut gs,
    r = EagerStep fut
    ∧ is_callable loss = true
    ∧ _func_or_method fut
      = TrainClosure optimizer gs (transform_grads_fn a)
                     (summarize_gradients a) (check_numerics a)
    ∧ (is_USE_GLOBAL_STEP (global_step a) = false → gs = global_step a)
    ∧ _args fut = [] ∧ _self fut = None ∧ _arg_names fut = []
    ∧ dicts s1 !! _kwargs fut
      = Some (train_kwargs loss (effective_total_loss_fn a) (variables_to_train a)).
Proof.
  intros Hmode H. rewrite create_train_step_unfold in H.
  destruct (is_callable (effective_total_loss_fn a)); [|done]. cbn [negb] in H.
  apply bind_Return in H as (w0 & s0 & Hw & H).
  apply ret_Return in Hw as [<- <-]. rewrite Hmode in H. cbn [negb] in H.
  apply bind_Return in H as (gs & s2 & Hgs & H).
  destruct (is_callable loss); [|done]. cbn [negb] in H.
  apply bind_Return in H as (u & s3 & _ & H).
  apply bind_Return in H as (fut & s4 & Hfut & H).
  apply ret_Return in H as [<- <-].
  rewrite Future_new_train_step in Hfut by done. injection Hfut as <- <-.
  exists (mkFuture (TrainClosure optimizer gs (transform_grads_fn a)
                      (summarize_gradients a) (check_numerics a))
            [] (kwargs_ref s3 (train_kwargs loss (effective_total_loss_fn a)
                                             (variables_to_train a))) [] None), gs.
  repeat split; try done.
  - intros Huse. rewrite Huse in Hgs. by apply ret_Return in Hgs as [<- _].
  - simpl. by rewrite lookup_insert_eq.
Qed.

(** *** Where the module raises *)

Lemma no_own_ret {A} (a : A) : no_own (ret a).
Proof. by intros s c msg s'. Qed.

Lemma no_own_raise_host {A} (e : host_exn) : no_own (A := A) (raise (Host e)).
Proof. by intros s c msg s'. Qed.

Lemma no_own_from_callee {A} (m : M host_exn A) : no_own (from_callee m).
Proof. intros s c msg s'. unfold from_callee. by destruct (m s) as [[a|e] s1]. Qed.

Lemma no_own_returns {A} (m : M exn A) :
  (∀ s, ∃ a s', m s = (Return a, s')) → no_own m.
Proof. intros H s c msg s'. destruct (H s) as (a & s1 & ->). done. Qed.

Lemma no_own_bind {A B} (m : M exn A) (k : A → M exn B) :
  no_own m → (∀ a, no_own (k a)) → no_own (bind m k).
Proof.
  intros Hm Hk s c msg s'. unfold bind. specialize (Hm s c msg).
  destruct (m s) as [[a|e] s1]; [apply Hk|]. intros [= -> ->]. by apply (Hm s').
Qed.

Lemma bind_Own {A B} (m : M exn A) (k : A → M exn B) (s s' : state) c msg :
  no_own m →
  bind m k s = (Raise (Own c msg), s') →
  ∃ a s1, m s = (Return a, s1) ∧ k a s1 = (Raise (Own c msg), s').
Proof.
  intros Hm. unfold bind. specialize (Hm s c msg).
  destruct (m s) as [[a|e] s1]; [eauto|]. intros [= -> ->]. by destruct (Hm s').
Qed.

Lemma no_own_for_each {A} (xs : list A) (body : A → M exn unit) :
  (∀ x, no_own (body x)) → no_own (for_each xs body).
Proof.
  intros Hb. induction xs as [|x xs IH]; simpl; [apply no_own_ret|].
  apply no_own_bind; [apply Hb|]. by intros _.
Qed.

Lemma no_own_Future_call {F} `{!PyCallable F} (fut : Future F)
    (args : list value) (kwargs : gmap string value) :
  no_own (Future_call fut args kwargs).
Proof.
  intros s c msg s'. rewrite Future_call_eq. apply no_own_from_callee.
Qed.

Lemma no_own_wrapper (func : callable) (get_output_dtypes : value)
    (args : list value) (kwargs : gmap string value) :
  no_own (wrapper func get_output_dtypes args kwargs).
Proof.
  intros s c msg s'. destruct (executing_eagerly (host s)) eqn:Hmode.
  - rewrite wrapper_eager_eq by done.
    destruct (mapM_o _ args) as [np|e]; [|done].
    destruct (fn_body func np kwargs (host s)) as [[result|e] w]; [|done].
    by destruct (map_structure_o convert result).
  - rewrite wrapper_graph_eq by done.
    assert (Hstep : ∀ entry s2, py_function_step func args kwargs entry s2
                                ≠ (Raise (Own c msg), s')).
    { intros entry s2. unfold py_function_step.
      by destruct (py_function _ _ _ _ _) as [[v|e] w]. }
    destruct (input_dtypes_of args) as [key|e]; [|done].
    destruct (memo_entry s (fn_id func) key); [apply Hstep|].
    destruct (inference _ _ _ _ _ _) as [[entry|e] s2]; [apply Hstep|done].
Qed.

Lemma Future_new_Own {F} `{!PyCallable F} (f : F) (args : list value)
    (kwargs : gmap string value) (s s' : state) c msg :
  Future_new f args kwargs s = (Raise (Own c msg), s') →
  c = ValueError ∧ msg = unbound_msg ∧ args = []
  ∧ has_self_cls_arg f = Return true ∧ is_unbound f = true.
Proof.
  rewrite Future_new_eq. simpl. destruct (binds_twice kwargs); [done|].
  destruct (if PY2 then getargspec_args f else getfullargspec_args f) as [names|e]; [|done].
  destruct (has_self_cls_arg f) as [[|]|e]; [|done|done].
  destruct (is_unbound f); [|done]. destruct args; [|done]. by intros [= <- <-].
Qed.

Lemma create_train_step_Own (loss optimizer : value) (a : train_args)
    (s s' : state) c msg :
  create_train_step loss optimizer a s = (Raise (Own c msg), s') →
  c = ValueError
  ∧ ((msg = total_loss_fn_msg ∧ is_callable (effective_total_loss_fn a) = false)
     ∨ (msg = loss_msg ∧ executing_eagerly (host s) = true ∧ is_callable loss = false)).
Proof.
  rewrite create_train_step_unfold.
  destruct (is_callable (effective_total_loss_fn a)); cbn [negb];
    [|intros [= <- <-]; split; [done|by left]].
  intros H. apply bind_Own in H as (w & s0 & Hw & H);
    [|apply no_own_returns; intros s2; by exists (host s2), s2].
  apply ret_Return in Hw as [<- <-].
  assert (Hmaybe : ∀ v, no_own (if is_callable v then from_callee (py_call v [] ∅) else ret v)).
  { intros v. destruct (is_callable v); [apply no_own_from_callee|apply no_own_ret]. }
  destruct (executing_eagerly (host s)) eqn:Hmode; cbn [negb] in H.
  - apply bind_Own in H as (gs & s2 & _ & H);
      [|destruct (is_USE_GLOBAL_STEP _); [apply no_own_from_callee|apply no_own_ret]].
    destruct (is_callable loss); cbn [negb] in H;
      [|injection H as <- <- _; split; [done|by right]].
    exfalso. revert H. apply no_own_bind.
    + destruct (is_Future_instance loss); [apply no_own_ret|].
      apply no_own_bind; [apply no_own_from_callee|intros _; apply no_own_ret].
    + intros _. apply no_own_bind; [|intros fut; apply no_own_ret].
      apply no_own_returns. intros s3. rewrite Future_new_train_step by done. eauto.
  - exfalso. revert H.
    apply no_own_bind; [apply Hmaybe|intros loss0].
    apply no_own_bind; [apply Hmaybe|intros vtt0].
    apply no_own_bind; [apply no_own_from_callee|intros ctx1].
    apply no_own_bind; [apply no_own_from_callee|intros train_op].
    apply no_own_bind; [apply no_own_from_callee|intros ctx2].
    apply no_own_bind; [apply no_own_from_callee|intros r]. apply no_own_ret.
Qed.

(** C5, as amended.  The module raises exceptions of its own at four
    guards and nowhere else: [TypeError] from [future_in_eager_mode] on an
    object that is not callable; [ValueError] from [Future.__init__], and so
    from a decorated function in eager mode, on an unbound method given no
    positional argument; [ValueError] from [create_train_step] on a
    [total_loss_fn] that is not callable and, in eager mode, on a loss that
    is not callable.  [Future.__call__] and the wrapper of [np_function]
    raise none; every other exception comes from a callee. *)
Theorem own_exceptions_are_the_guards :
  (∀ v e, future_in_eager_mode v = Raise e →
          e = Own TypeError not_callable_msg ∧ py_callable v = None)
  ∧ (∀ (f : callable) args kwargs s s' c msg,
       Future_new f args kwargs s = (Raise (Own c msg), s') →
       c = ValueError ∧ msg = unbound_msg ∧ args = []
       ∧ has_self_cls_arg f = Return true ∧ is_unbound f = true)
  ∧ (∀ (f : callable) args kwargs s s' c msg,
       decorator f args kwargs s = (Raise (Own c msg), s') →
       executing_eagerly (host s) = true
       ∧ c = ValueError ∧ msg = unbound_msg ∧ args = []
       ∧ has_self_cls_arg f = Return true ∧ is_unbound f = true)
  ∧ (∀ (fut : Future callable) args kwargs, no_own (Future_call fut args kwargs))
  ∧ (∀ (fut : Future train_closure) args kwargs, no_own (Future_call fut args kwargs))
  ∧ (∀ loss optimizer a s s' c msg,
       create_train_step loss optimizer a s = (Raise (Own c msg), s') →
       c = ValueError
       ∧ ((msg = total_loss_fn_msg ∧ is_callable (effective_total_loss_fn a) = false)
          ∨ (msg = loss_msg ∧ executing_eagerly (host s) = true
             ∧ is_callable loss = false)))
  ∧ (∀ func get_output_dtypes args kwargs,
       no_own (wrapper func get_output_dtypes args kwargs)).
Proof.
  split; [|split; [|split; [|split; [|split; [|split]]]]].
  - intros v e. unfold future_in_eager_mode.
    destruct (py_callable v); [done|]. by intros [= <-].
  - intros f args kwargs s s' c msg. apply Future_new_Own.
  - intros f args kwargs s s' c msg H. unfold decorator in H.
    apply bind_Own in H as (w & s0 & Hw & H);
      [|apply no_own_returns; intros s2; by exists (host s2), s2].
    apply ret_Return in Hw as [<- <-].
    destruct (executing_eagerly (host s)).
    + split; [done|]. unfold bind in H.
      destruct (Future_new f args kwargs s) as [[fut|e] s1] eqn:Hnew; [done|].
      injection H as -> ->. by apply Future_new_Own in Hnew.
    + exfalso. revert H.
      apply no_own_bind; [apply no_own_from_callee|intros v; apply no_own_ret].
  - intros fut args kwargs. apply no_own_Future_call.
  - intros fut args kwargs. apply no_own_Future_call.
  - intros loss optimizer a s s' c msg. apply create_train_step_Own.
  - intros func god args kwargs. apply no_own_wrapper.
Qed.

End Theory.


(** ** More of the module *)

Section More.
Context `{HT : HostTypes} `{PH : !PyHost} `{NH : !NumpyHost}.

Notation "x <- m ;; k" := (bind m (fun x => k))
  (at level 100, m at next level, right associativity).
Notation "m ;;; k" := (bind m (fun _ => k))
  (at level 100, right associativity).

(** *** Future: construction followed by a call *)

Lemma remove_keys_lookup (names : list string) (d : gmap string value) (key : string) :
  remove_keys names d !! key = if bool_decide (key ∈ names) then None else d !! key.
Proof.
  revert d. induction names as [|n names IH]; intros d.
  - by rewrite bool_decide_false by set_solver.
  - change (remove_keys (n :: names) d) with (remove_keys names (delete n d)).
    rewrite IH. destruct (decide (key ∈ names)) as [Hin|Hnin].
    + by rewrite !bool_decide_true by set_solver.
    + rewrite (bool_decide_false (key ∈ names)) by done.
      destruct (decide (key = n)) as [->|Hne].
      * rewrite bool_decide_true by (apply elem_of_cons; by left).
        apply lookup_delete_eq.
      * rewrite bool_decide_false by (intros [?|?]%elem_of_cons; done).
        by apply lookup_delete_ne.
Qed.

(** X1. A [Future] built from a function, positional and keyword
    arguments, and then called without arguments, calls the function on
    exactly those arguments, provided the [self] or [cls] it took from the
    front of the positional arguments, if any, is true: the outcome, the
    effect on the framework and the call on the trace are those of the
    direct call. *)
Theorem Future_new_then_call (f : callable) (args : list value)
    (kwargs : gmap string value) (s0 s1 : state) (fut : Future callable) (s : state) :
  Future_new f args kwargs s0 = (Return fut, s1) →
  (∀ v, _self fut = Some v → truthy v = true) →
  dicts s !! _kwargs fut = Some kwargs →
  dicts s1 !! _kwargs fut = Some kwargs
  ∧ Future_call fut [] ∅ s
    = let '(r, w) := fn_body f args kwargs (host s) in
      (lift_outcome r, after_call (with_call_dict s kwargs) f args kwargs w).
Proof.
  intros Hnew Hself Hlive.
  assert (Hfields : _func_or_method fut = f
                    ∧ _kwargs fut = kwargs_ref s0 kwargs
                    ∧ s1 = after_new s0 kwargs
                    ∧ match _self fut with
                      | Some v => v :: _args fut
                      | None => _args fut
                      end = args).
  { rewrite Future_new_eq in Hnew. cbv zeta in Hnew.
    destruct (binds_twice kwargs); [done|].
    destruct (if PY2 then getargspec_args f else getfullargspec_args f) as [names|e];
      [|done].
    destruct (has_self_cls_arg f) as [[|]|e]; [|by injection Hnew as <- <-|done].
    destruct (is_unbound f); [|by injection Hnew as <- <-].
    destruct args as [|a0 rest]; [done|]. by injection Hnew as <- <-. }
  destruct Hfields as (Hf & Hk & Hs1 & Hargs). split.
  - rewrite Hs1, Hk. simpl. by rewrite lookup_insert_eq.
  - rewrite Future_call_user. simpl.
    rewrite (lookup_total_correct _ _ _ Hlive), Hf.
    assert (call_args_of fut [] = args) as ->.
    { unfold call_args_of, self_prefix. destruct (_self fut) as [v|]; [|done].
      by rewrite (Hself v eq_refl). }
    assert (call_kwargs_of fut kwargs [] ∅ = kwargs) as ->; [|done].
    unfold call_kwargs_of. simpl. by rewrite (left_id_L ∅ (∪)).
Qed.

(** X2. Which keyword arguments a call of a [Future] passes on: a keyword
    given to the call wins; a stored keyword is dropped when it names one of
    the first [k] parameters and the call gives [k] positional arguments;
    every other stored keyword is passed as stored. *)
Theorem Future_call_keyword_precedence (fut : Future callable) (args : list value)
    (kwargs : gmap string value) (s : state) :
  ∃ kw,
    trace (Future_call fut args kwargs s).2
    = trace s ++ [ECall (fn_id (_func_or_method fut)) (call_args_of fut args) kw]
    ∧ ∀ key,
        kw !! key
        = match kwargs !! key with
          | Some v => Some v
          | None =>
              if bool_decide (key ∈ take (length args) (_arg_names fut)) then None
              else (dicts s !!! _kwargs fut) !! key
          end.
Proof.
  exists (call_kwargs_of fut (dicts s !!! _kwargs fut) args kwargs). split.
  - rewrite Future_call_user. simpl. by destruct (fn_body _ _ _ _) as [r w].
  - intros key. unfold call_kwargs_of. rewrite lookup_union.
    rewrite remove_keys_lookup. destruct (kwargs !! key) as [v|]; simpl.
    + by destruct (if bool_decide _ then _ else _).
    + by rewrite (left_id None _).
Qed.

(** *** Summary tags *)

Lemma chars_app (a b : string) : chars (a ++ b) = chars a ++ chars b.
Proof. induction a as [|c a IH]; simpl; [done|]. by rewrite IH. Qed.

Lemma replace_colon_chars (s : string) :
  chars (replace_colon s)
  = (fun c => if Ascii.eqb c ":"%char then "_"%char else c) <$> chars s.
Proof. induction s as [|c s IH]; simpl; [done|]. by rewrite IH. Qed.

(** X3. [replace_colon], the [replace(':', '_')] applied to a variable's
    name, leaves no colon, keeps the length, puts an underscore exactly
    where a colon was and changes nothing in a name without a colon. *)
Theorem replace_colon_spec (s : string) :
  (":"%char ∉ chars (replace_colon s))
  ∧ String.length (replace_colon s) = String.length s
  ∧ (∀ i c, chars s !! i = Some c →
            chars (replace_colon s) !! i
            = Some (if Ascii.eqb c ":"%char then "_"%char else c))
  ∧ (":"%char ∉ chars s → replace_colon s = s).
Proof.
  split; [|split; [|split]].
  - rewrite replace_colon_chars. intros Hin.
    apply list_elem_of_fmap in Hin as (c & Hc & _).
    destruct (Ascii.eqb c ":"%char) eqn:Heq; [done|].
    subst c. by rewrite Ascii.eqb_refl in Heq.
  - induction s as [|c s IH]; simpl; [done|]. by rewrite IH.
  - intros i c Hi. rewrite replace_colon_chars, list_lookup_fmap. by rewrite Hi.
  - induction s as [|c s IH]; simpl; [done|]. intros Hnin.
    rewrite IH by set_solver.
    destruct (Ascii.eqb c ":"%char) eqn:Heq; [|done].
    apply Ascii.eqb_eq in Heq as ->. set_solver.
Qed.

(** *** add_gradients_summaries *)

Lemma replace_colon_no_colon (s suffix : string) :
  ":"%char ∉ chars suffix → ":"%char ∉ chars (replace_colon s ++ suffix).
Proof.
  intros Hs. rewrite chars_app, replace_colon_chars.
  intros [Hin|Hin]%elem_of_app; [|done].
  apply list_elem_of_fmap in Hin as (c & Hc & _).
  destruct (Ascii.eqb c ":"%char) eqn:Heq; [done|].
  subst c. by rewrite Ascii.eqb_refl in Heq.
Qed.

Lemma suffix_gradient_no_colon : ":"%char ∉ chars "_gradient".
Proof.
  simpl. intros H.
  repeat (apply elem_of_cons in H as [H|H]; [discriminate|]).
  by apply elem_of_nil in H.
Qed.

Lemma suffix_gradient_norm_no_colon : ":"%char ∉ chars "_gradient_norm".
Proof.
  simpl. intros H.
  repeat (apply elem_of_cons in H as [H|H]; [discriminate|]).
  by apply elem_of_nil in H.
Qed.

Lemma iterate_Return (v : value) (s s' : state) (xs : list value) :
  iterate v s = (Return xs, s') →
  ∃ t, yields v xs t ∧ trace s' = trace s ++ t.
Proof.
  destruct v as [ | | | str | a | k ys | ]; try done.
  - intros [<- <-]%ret_Return. exists []. by rewrite app_nil_r.
  - unfold iterate. intros H. apply bind_Return in H as (r & s1 & Hr & H).
    apply tf_Return in Hr as [Hs1 Hh].
    destruct r as [ | | | | | k ys | ]; try done.
    apply ret_Return in H as [<- <-]. eexists. split; [|by rewrite Hs1].
    split; [done|]. by exists (host s), (host s1), k.
  - intros [<- <-]%ret_Return. exists []. by rewrite app_nil_r.
Qed.

Lemma summarize_pair_Return (item : value) (s s' : state) (u : unit) :
  summarize_pair item s = (Return u, s') →
  ∃ p t, trace s' = trace s ++ t ∧ item_trace item p t.
Proof.
  intros H. unfold summarize_pair in H.
  apply bind_Return in H as (gv & s0 & Hit & H).
  apply iterate_Return in Hit as (t0 & Hy & Ht0).
  destruct gv as [|grad [|var [|]]]; try done.
  assert (Hsum : ∃ t1, trace s' = trace s0 ++ t1 ∧ summary_trace grad var t1).
  { assert (Hgrad : ∀ is_slices s1 grad_values s2 name s3,
      tf "isinstance" [grad; PyStr "tf.IndexedSlices"] ∅ s0 = (Return is_slices, s1) →
      (if truthy is_slices then tf "getattr" [grad; PyStr "values"] ∅ else ret grad) s1
      = (Return grad_values, s2) →
      tf "getattr" [var; PyStr "name"] ∅ s2 = (Return name, s3) →
      match name with
      | PyStr n =>
          tf "tf.contrib.summary.histogram" [PyStr (replace_colon n ++ "_gradient"); grad_values] ∅ ;;;
          norm <- tf "tf.global_norm" [Seq KList [grad_values]] ∅ ;;
          tf "tf.contrib.summary.scalar" [PyStr (replace_colon n ++ "_gradient_norm"); norm] ∅ ;;;
          ret tt
      | _ => raise (interp_error "AttributeError")
      end s3 = (Return u, s') →
      ∃ n norm, (truthy is_slices = false → grad_values = grad)
                ∧ trace s' = trace s0 ++ gradient_trace grad var is_slices grad_values n norm).
    { intros is_slices s1 grad_values s2 name s3 H1 H2 H3 H4.
      apply tf_Return in H1 as [Hs1 _]. apply tf_Return in H3 as [Hs3 _].
      destruct name as [ | | | n | | | ]; try done.
      apply bind_Return in H4 as (u1 & s4 & Hh & H4). apply tf_Return in Hh as [Hs4 _].
      apply bind_Return in H4 as (norm & s5 & Hn & H4). apply tf_Return in Hn as [Hs5 _].
      apply bind_Return in H4 as (u2 & s6 & Hsc & H4). apply tf_Return in Hsc as [Hs6 _].
      apply ret_Return in H4 as [_ <-].
      exists n, norm. unfold gradient_trace.
      destruct (truthy is_slices).
      - apply tf_Return in H2 as [Hs2 _]. split; [done|].
        rewrite Hs6, trace_after_tf, Hs5, trace_after_tf, Hs4, trace_after_tf,
                Hs3, trace_after_tf, Hs2, trace_after_tf, Hs1, trace_after_tf.
        by rewrite <- !app_assoc.
      - apply ret_Return in H2 as [<- <-]. split; [done|].
        rewrite Hs6, trace_after_tf, Hs5, trace_after_tf, Hs4, trace_after_tf,
                Hs3, trace_after_tf, Hs1, trace_after_tf.
        by rewrite <- !app_assoc. }
    unfold summary_trace.
    destruct grad as [ | b | z | str | a | k xs | ];
      [ apply bind_Return in H as (name & s1 & Hn & H);
        apply tf_Return in Hn as [Hs1 _];
        apply bind_Return in H as (u1 & s2 & Hi & H);
        apply tf_Return in Hi as [Hs2 _];
        apply ret_Return in H as [_ <-];
        eexists; split;
          [ rewrite Hs2, trace_after_tf, Hs1, trace_after_tf, <- app_assoc; reflexivity
          | simpl; by exists name ]
      | .. ];
      (apply bind_Return in H as (is_slices & s1 & H1 & H);
       apply bind_Return in H as (grad_values & s2 & H2 & H);
       apply bind_Return in H as (name & s3 & H3 & H);
       destruct (Hgrad _ _ _ _ _ _ H1 H2 H3 H) as (n & norm & Hv & Ht);
       eexists; split; [exact Ht|];
       simpl; by exists is_slices, grad_values, n, norm). }
  destruct Hsum as (t1 & Ht1 & Hs).
  exists (grad, var), (t0 ++ t1). split; [by rewrite Ht1, Ht0, <- app_assoc|].
  by exists t0, t1.
Qed.

Lemma for_each_summarize_pair_Return (items : list value) (s s' : state) (u : unit) :
  for_each items summarize_pair s = (Return u, s') →
  ∃ pts : list ((value * value) * list event),
    Forall2 (λ item pt, item_trace item pt.1 pt.2) items pts
    ∧ trace s' = trace s ++ concat pts.*2.
Proof.
  revert s. induction items as [|x xs IH]; intros s H.
  - apply ret_Return in H as [_ <-]. exists []. split; [constructor|].
    simpl. by rewrite app_nil_r.
  - simpl in H. apply bind_Return in H as (u1 & s1 & Hx & H).
    apply summarize_pair_Return in Hx as (p & t & Ht & Hp).
    destruct (IH _ H) as (pts & Hf & Hts).
    exists ((p, t) :: pts). split; [by constructor|].
    simpl. by rewrite Hts, Ht, <- app_assoc.
Qed.

Lemma add_gradients_summaries_Return (grads_and_vars : value) (s s' : state) (u : unit) :
  add_gradients_summaries grads_and_vars s = (Return u, s') →
  ∃ items t0 (pts : list ((value * value) * list event)),
    yields grads_and_vars items t0
    ∧ Forall2 (λ item pt, item_trace item pt.1 pt.2) items pts
    ∧ trace s' = trace s ++ t0 ++ concat pts.*2.
Proof.
  intros H. unfold add_gradients_summaries in H.
  apply bind_Return in H as (items & s0 & Hit & H).
  apply iterate_Return in Hit as (t0 & Hy & Ht0).
  apply for_each_summarize_pair_Return in H as (pts & Hf & Hts).
  exists items, t0, pts. split; [done|]. split; [done|].
  by rewrite Hts, Ht0, <- app_assoc.
Qed.

Lemma count_op_app (op : string) (t1 t2 : list event) :
  count_op op (t1 ++ t2) = count_op op t1 + count_op op t2.
Proof. unfold count_op. by rewrite filter_app, length_app. Qed.

Lemma yields_counts (op : string) (v : value) (xs : list value) (t : list event) :
  String.eqb "iter" op = false →
  yields v xs t → count_op op t = 0.
Proof.
  intros Hop H. destruct v as [ | | | | a | | ]; try done;
    destruct H as [H1 H2]; subst; try done.
  unfold count_op. rewrite filter_cons_False; [done|].
  change (is_op op (EHost "iter" [Atom a] ∅)) with (String.eqb "iter" op).
  by rewrite Hop.
Qed.

Lemma summary_trace_counts (grad var : value) (t : list event) :
  summary_trace grad var t →
  count_op "tf.contrib.summary.histogram" t = (if is_None grad then 0 else 1)
  ∧ count_op "tf.contrib.summary.scalar" t = (if is_None grad then 0 else 1)
  ∧ count_op "tf.logging.info" t = (if is_None grad then 1 else 0).
Proof.
  unfold summary_trace. destruct (is_None grad).
  - by intros (name & ->).
  - intros (is_slices & gv & n & norm & _ & ->).
    unfold gradient_trace. by destruct (truthy is_slices).
Qed.

Lemma item_trace_counts (item : value) (p : value * value) (t : list event) :
  item_trace item p t →
  count_op "tf.contrib.summary.histogram" t = (if is_None p.1 then 0 else 1)
  ∧ count_op "tf.contrib.summary.scalar" t = (if is_None p.1 then 0 else 1)
  ∧ count_op "tf.logging.info" t = (if is_None p.1 then 1 else 0).
Proof.
  intros (t0 & t1 & Hy & Hs & ->).
  apply summary_trace_counts in Hs as (H1 & H2 & H3).
  rewrite !count_op_app, H1, H2, H3.
  rewrite (yields_counts "tf.contrib.summary.histogram" _ _ _ eq_refl Hy),
          (yields_counts "tf.contrib.summary.scalar" _ _ _ eq_refl Hy),
          (yields_counts "tf.logging.info" _ _ _ eq_refl Hy).
  done.
Qed.

(** X4. When [add_gradients_summaries] returns, iterating over its
    argument gave items each of which unpacked into a gradient and a
    variable, and it has written one histogram and one scalar summary for
    each gradient that is not [None] and one line of log for each gradient
    that is [None]. *)
Theorem add_gradients_summaries_counts (grads_and_vars : value) (s s' : state) (u : unit) :
  add_gradients_summaries grads_and_vars s = (Return u, s') →
  ∃ items (pairs : list (value * value)) t,
    (∃ t0, yields grads_and_vars items t0)
    ∧ Forall2 (λ item p, ∃ ti, yields item [p.1; p.2] ti) items pairs
    ∧ trace s' = trace s ++ t
    ∧ count_op "tf.contrib.summary.histogram" t
      = length (filter (λ p, is_None p.1 = false) pairs)
    ∧ count_op "tf.contrib.summary.scalar" t
      = length (filter (λ p, is_None p.1 = false) pairs)
    ∧ count_op "tf.logging.info" t
      = length (filter (λ p, is_None p.1 = true) pairs).
Proof.
  intros H.
  apply add_gradients_summaries_Return in H as (items & t0 & pts & Hy & Hf & Ht).
  exists items, pts.*1, (t0 ++ concat pts.*2).
  split; [by exists t0|]. split; [|split; [done|]].
  - clear Ht Hy. induction Hf as [|x [p t] xs pts' (ti & t1 & Hx & _) _ IH]; simpl.
    + apply Forall2_nil_2.
    + apply Forall2_cons_2; [by exists ti|done].
  - rewrite !count_op_app,
            (yields_counts "tf.contrib.summary.histogram" _ _ _ eq_refl Hy),
            (yields_counts "tf.contrib.summary.scalar" _ _ _ eq_refl Hy),
            (yields_counts "tf.logging.info" _ _ _ eq_refl Hy). simpl.
    clear Ht Hy. induction Hf as [|x [p t] xs pts' Hx _ IH]; [done|].
    apply item_trace_counts in Hx as (H1 & H2 & H3). simpl in H1, H2, H3.
    destruct IH as (I1 & I2 & I3).
    rewrite !fmap_cons. cbn [concat fst snd].
    rewrite !count_op_app, H1, H2, H3, I1, I2, I3.
    rewrite !filter_cons. by destruct (is_None p.1); repeat case_decide.
Qed.

Lemma summary_trace_tags (grad var : value) (t : list event) :
  summary_trace grad var t → Forall tag_without_colon t.
Proof.
  unfold summary_trace. destruct (is_None grad).
  - intros (name & ->). repeat (apply Forall_cons; split); try apply Forall_nil; done.
  - intros (is_slices & gv & n & norm & _ & ->). unfold gradient_trace.
    assert (Hh : ":"%char ∉ chars (replace_colon n ++ "_gradient"))
      by (apply replace_colon_no_colon, suffix_gradient_no_colon).
    assert (Hs : ":"%char ∉ chars (replace_colon n ++ "_gradient_norm"))
      by (apply replace_colon_no_colon, suffix_gradient_norm_no_colon).
    destruct (truthy is_slices); repeat (apply Forall_cons; split);
      try apply Forall_nil; done.
Qed.

Lemma yields_tags (v : value) (xs : list value) (t : list event) :
  yields v xs t → Forall tag_without_colon t.
Proof.
  intros H. destruct v; try done; destruct H as [H1 H2]; subst; try constructor; done.
Qed.

(** X5. No summary that [add_gradients_summaries] writes has a colon in
    its tag: the tag is the variable's name with every colon replaced,
    followed by [_gradient] or [_gradient_norm]. *)
Theorem add_gradients_summaries_tags (grads_and_vars : value) (s s' : state) (u : unit) :
  add_gradients_summaries grads_and_vars s = (Return u, s') →
  ∃ t, trace s' = trace s ++ t ∧ Forall tag_without_colon t.
Proof.
  intros H.
  apply add_gradients_summaries_Return in H as (items & t0 & pts & Hy & Hf & Ht).
  exists (t0 ++ concat pts.*2). split; [done|]. clear Ht.
  apply Forall_app. split; [by eapply yields_tags|]. clear Hy.
  induction Hf as [|x [p t] xs pts' Hx _ IH]; [constructor|].
  rewrite fmap_cons. cbn [concat snd]. apply Forall_app. split; [|done].
  destruct Hx as (ti & t1 & Hyi & Hs & Heq). simpl in Heq. subst t.
  apply Forall_app. split; [by eapply yields_tags|by eapply summary_trace_tags].
Qed.

(** *** train_step: summaries and failures *)





Lemma with_ctx_run {A} (ctx : value) (body : value → M host_exn A) (s : state) :
  with_ctx ctx body s
  = match host_call "__enter__" [ctx] ∅ (host s) with
    | (Raise e, w) => (Raise e, after_tf s "__enter__" [ctx] ∅ w)
    | (Return v, w) =>
        let '(r, s2) := body v (after_tf s "__enter__" [ctx] ∅ w) in
        match host_call "__exit__" [ctx] ∅ (host s2) with
        | (Return _, w') => (r, after_tf s2 "__exit__" [ctx] ∅ w')
        | (Raise e, w') => (Raise e, after_tf s2 "__exit__" [ctx] ∅ w')
        end
    end.
Proof.
  unfold with_ctx. unfold bind at 1. rewrite tf_run.
  destruct (host_call "__enter__" [ctx] ∅ (host s)) as [[v|e] w]; [|done].
  unfold finally. destruct (body v _) as [r s2]. unfold bind. rewrite tf_run.
  by destruct (host_call "__exit__" [ctx] ∅ (host s2)) as [[u|e] w'].
Qed.

(** X7. When the loss raises inside a training step, the step leaves the
    gradient tape, raises (the exception of the loss, or that of the tape's
    [__exit__] if that raises too) and has called nothing else: no gradient
    is computed and the optimizer is not called. *)
Theorem train_step_loss_raises (cl : train_closure) (args : list value)
    (loss tfn vtt : value) (s : state) (ctx tape : value) (c : callable)
    (w1 w2 w3 : world) (e : host_exn) :
  host_call "tf.GradientTape" [] ∅ (host s) = (Return ctx, w1) →
  host_call "__enter__" [ctx] ∅ w1 = (Return tape, w2) →
  py_callable loss = Some c →
  fn_body c args ∅ w2 = (Raise e, w3) →
  train_step cl args (train_kwargs loss tfn vtt) s
  = let '(r, w4) := host_call "__exit__" [ctx] ∅ w3 in
    (match r with
     | Return _ => Raise e
     | Raise e' => Raise e'
     end,
     after_failed_loss s ctx c args w4).
Proof.
  intros Hctx Henter Hc Hbody. unfold train_step.
  rewrite (pop_key_run "_loss" _ loss) by done. unfold bind at 1. unfold ret at 1.
  rewrite (pop_key_run "_total_loss_fn" _ tfn) by done. unfold bind at 1. unfold ret at 1.
  rewrite (pop_key_run "_variables_to_train" _ vtt) by done.
  unfold bind at 1. unfold ret at 1.
  unfold bind at 1. rewrite tf_run, Hctx.
  unfold bind at 1. rewrite with_ctx_run. cbn [host after_tf]. rewrite Henter.
  unfold bind at 1. unfold py_call. rewrite Hc, call_run. cbn [host after_tf].
  rewrite Hbody. cbn [host after_call].
  destruct (host_call "__exit__" [ctx] ∅ w3) as [[u|e'] w4];
    unfold after_failed_loss, after_tf, after_call; cbn [trace dicts memo host];
    by rewrite <- !app_assoc.
Qed.

(** *** create_train_step in eager mode defers everything *)

(** X8. In eager mode a [create_train_step] that returns has called
    neither the loss nor any gradient or optimizer function: it has fetched
    the global step when none was given, and logged a warning when the loss
    is not a [Future], and nothing else.  The step it returns will pass the
    optimizer the global step it was given or the one it fetched. *)
Theorem create_train_step_eager_defers (loss optimizer : value) (a : train_args)
    (s s1 : state) (fut : Future train_closure) :
  executing_eagerly (host s) = true →
  create_train_step loss optimizer a s = (Return (EagerStep fut), s1) →
  trace s1 = trace s ++ eager_setup_trace loss a
  ∧ if is_USE_GLOBAL_STEP (global_step a)
    then ∃ w, host_call "tf.train.get_or_create_global_step" [] ∅ (host s)
              = (Return (cl_global_step (_func_or_method fut)), w)
    else cl_global_step (_func_or_method fut) = global_step a.
Proof.
  intros Hmode H. rewrite create_train_step_unfold in H.
  destruct (is_callable (effective_total_loss_fn a)); [|done]. cbn [negb] in H.
  apply bind_Return in H as (w0 & s0 & Hw & H).
  apply ret_Return in Hw as [<- <-]. rewrite Hmode in H. cbn [negb] in H.
  apply bind_Return in H as (gs & s2 & Hgs & H).
  destruct (is_callable loss); [|done]. cbn [negb] in H.
  apply bind_Return in H as (u & s3 & Hwarn & H).
  apply bind_Return in H as (fut' & s4 & Hfut & H).
  apply ret_Return in H as [[= <-] <-].
  rewrite Future_new_train_step in Hfut by done. injection Hfut as <- <-.
  unfold eager_setup_trace. cbn [_func_or_method cl_global_step after_new trace].
  assert (Ht3 : trace s3 = trace s2 ++
            (if is_Future_instance loss then []
             else [EHost "tf.logging.warning"
                         [PyStr "loss should be an instance of eager_utils.Future"] ∅])).
  { destruct (is_Future_instance loss).
    - apply ret_Return in Hwarn as [_ <-]. by rewrite app_nil_r.
    - apply bind_Return in Hwarn as (u1 & s3' & Hw & Hr).
      apply ret_Return in Hr as [_ <-].
      by apply from_callee_Return, tf_Return in Hw as [-> _]. }
  rewrite Ht3. destruct (is_USE_GLOBAL_STEP (global_step a)).
  - apply from_callee_Return, tf_Return in Hgs as [Hs2 Hh].
    split; [|eauto]. rewrite Hs2, trace_after_tf. by rewrite <- app_assoc.
  - by apply ret_Return in Hgs as [<- <-].
Qed.

(** *** np_function: the memo of one function, and arguments that do not convert *)

Lemma wrapper_memo_other (func : callable) (get_output_dtypes : value)
    (args : list value) (kwargs : gmap string value) (s : state) (fid' : nat) :
  fid' ≠ fn_id func →
  memo (wrapper func get_output_dtypes args kwargs s).2 !! fid' = memo s !! fid'.
Proof.
  intros Hne. destruct (executing_eagerly (host s)) eqn:Hmode.
  - rewrite wrapper_eager_eq by done.
    destruct (mapM_o _ args) as [np|e]; [|done].
    by destruct (fn_body func np kwargs (host s)) as [r w].
  - rewrite wrapper_graph_eq by done.
    destruct (input_dtypes_of args) as [key|e]; [|done].
    destruct (memo_entry s (fn_id func) key) as [entry|].
    + destruct (py_function_step_frame func args kwargs entry s) as [-> _]. done.
    + destruct (quiet_inference func get_output_dtypes args kwargs key
                  (at_miss s (fn_id func) key)) as [Hq _].
      destruct (inference _ _ _ _ _ _) as [[entry|e] s2]; cbn [snd] in *.
      * destruct (py_function_step_frame func args kwargs entry
                    (with_entry s2 (fn_id func) key entry)) as [-> _].
        unfold with_entry. cbn [memo]. rewrite lookup_insert_ne by done.
        by rewrite Hq.
      * by rewrite Hq.
Qed.

(** X9. [decorated] needs a function object that takes new attributes: on
    a method object, or an object without a [__dict__] such as a builtin,
    the assignment [func.memo = {}] raises AttributeError, no wrapper is
    made and nothing changes.  Otherwise it hands out the wrapper and
    empties the memo of the function, so that whatever the memo held
    before, the next graph-mode call starts an inference for its tuple of
    input dtypes; the trace, the framework's state and the memos of other
    functions are as they were.  No call of the wrapper, in either mode,
    whether it returns or raises, changes the memo of another function. *)
Theorem memo_is_per_function (func : callable) (get_output_dtypes : value) (s : state) :
  (if negb (fn_ismethod func) && takes_attributes func
   then ∃ s1,
          decorated func get_output_dtypes s = (Return (wrapper func get_output_dtypes), s1)
          ∧ host s1 = host s ∧ trace s1 = trace s ∧ dicts s1 = dicts s
          ∧ (∀ fid', fid' ≠ fn_id func → memo s1 !! fid' = memo s !! fid')
          ∧ ∀ args kwargs key,
              executing_eagerly (host s) = false →
              input_dtypes_of args = Return key →
              misses (fn_id func) key
                     (trace (wrapper func get_output_dtypes args kwargs s1).2)
              = S (misses (fn_id func) key (trace s))
   else decorated func get_output_dtypes s
        = (Raise (Host (interp_error "AttributeError")), s))
  ∧ (∀ args kwargs fid', fid' ≠ fn_id func →
       memo (wrapper func get_output_dtypes args kwargs s).2 !! fid' = memo s !! fid').
Proof.
  split; [|intros args kwargs fid' Hne; by apply wrapper_memo_other].
  unfold decorated, can_set_memo.
  destruct (negb (fn_ismethod func) && takes_attributes func); [|done].
  eexists. split; [reflexivity|]. cbn [memo_reset host trace dicts memo].
  split; [done|]. split; [done|]. split; [done|]. split.
  - intros fid' Hne. by rewrite lookup_insert_ne.
  - intros args kwargs key Hmode Hkey.
    rewrite wrapper_miss_counts; [done|done|done|].
    unfold memo_entry. cbn [memo]. by rewrite lookup_total_insert_eq.
Qed.

(** X10. With [get_output_dtypes] given, a graph-mode call that finds no
    entry calls [get_output_dtypes] on the input dtypes and never the
    wrapped function: what it returns becomes the entry and [Tout], and if
    it raises nothing is stored and no [tf.py_function] is made. *)
Theorem wrapper_with_get_output_dtypes (func g : callable) (get_output_dtypes : value)
    (args : list value) (kwargs : gmap string value) (key : list atom) (s : state) :
  executing_eagerly (host s) = false →
  input_dtypes_of args = Return key →
  memo_entry s (fn_id func) key = None →
  get_output_dtypes ≠ PyNone →
  py_callable get_output_dtypes = Some g →
  wrapper func get_output_dtypes args kwargs s
  = let '(r, w) := fn_body g (Atom <$> key) ∅ (host s) in
    let s1 := after_call (at_miss s (fn_id func) key) g (Atom <$> key) ∅ w in
    match r with
    | Raise e => (Raise (Host e), s1)
    | Return entry =>
        py_function_step func args kwargs entry (with_entry s1 (fn_id func) key entry)
    end.
Proof.
  intros Hmode Hkey Hmiss Hnone Hg. rewrite wrapper_graph_eq by done.
  rewrite Hkey, Hmiss.
  assert (inference func get_output_dtypes args kwargs key
          = py_call get_output_dtypes (Atom <$> key) ∅) as ->
    by (unfold inference; by destruct get_output_dtypes).
  unfold py_call. rewrite Hg, call_run. cbn [host at_miss].
  by destruct (fn_body g (Atom <$> key) ∅ (host s)) as [[entry|e] w].
Qed.

Lemma mapM_o_Return {E A B} (f : A → outcome E B) (xs : list A) (ys : list B) :
  mapM_o f xs = Return ys → Forall (λ x, ∃ y, f x = Return y) xs.
Proof.
  revert ys. induction xs as [|x xs IH]; intros ys H; [constructor|].
  simpl in H. destruct (f x) as [y|e] eqn:Hx; [|done].
  destruct (mapM_o f xs) as [ys'|e]; [|done].
  constructor; eauto.
Qed.

Lemma map_structure_o_leaves {E} (f : value → outcome E value) (v r : value) :
  map_structure_o f v = Return r → Forall (λ x, ∃ y, f x = Return y) (flatten v).
Proof.
  revert r. induction v as [ | | | | | k xs IH | ] using value_ind_nested; intros r H;
    try (repeat constructor; by exists r).
  rewrite map_structure_o_Seq in H. rewrite flatten_Seq.
  destruct (mapM_o (map_structure_o f) xs) as [ys|e] eqn:Hys; [|done]. clear H.
  revert ys Hys. induction IH as [|x xs Hx _ IHxs]; intros ys Hys; [constructor|].
  simpl in Hys. destruct (map_structure_o f x) as [y|e] eqn:Hy; [|done].
  destruct (mapM_o (map_structure_o f) xs) as [ys'|e]; [|done].
  rewrite fmap_cons. cbn [concat]. apply Forall_app. split; [by eapply Hx|].
  by eapply IHxs.
Qed.

(** X11. A positional argument with a leaf that does not convert (no
    [numpy()] in eager mode, no [dtype] in graph mode) makes the wrapper
    raise before anything else happens: the wrapped function is not called,
    no memo entry is made, and the state is as it was. *)
Theorem wrapper_rejects_bad_argument (func : callable) (get_output_dtypes : value)
    (args : list value) (kwargs : gmap string value) (s : state) (x : value) :
  x ∈ flatten (tuple args) →
  (if executing_eagerly (host s)
   then ∃ e, tensor_numpy x = Raise e
   else ∃ e, get_dtype x = Raise e) →
  ∃ e', wrapper func get_output_dtypes args kwargs s = (Raise (Host e'), s).
Proof.
  intros Hin Hbad. destruct (executing_eagerly (host s)) eqn:Hmode.
  - rewrite wrapper_eager_eq by done.
    destruct (mapM_o (map_structure_o tensor_numpy) args) as [np|e] eqn:Hnp; [|eauto].
    exfalso. destruct Hbad as [e He].
    assert (Hall : map_structure_o tensor_numpy (tuple args) = Return (tuple np))
      by (unfold tuple; by rewrite map_structure_o_Seq, Hnp).
    apply map_structure_o_leaves in Hall.
    rewrite Forall_forall in Hall. destruct (Hall x Hin) as [y Hy]. congruence.
  - rewrite wrapper_graph_eq by done. unfold input_dtypes_of.
    destruct (mapM_o get_dtype (flatten (tuple args))) as [key|e] eqn:Hkey; [|eauto].
    exfalso. destruct Hbad as [e He].
    apply mapM_o_Return in Hkey. rewrite Forall_forall in Hkey.
    destruct (Hkey x Hin) as [y Hy]. congruence.
Qed.

(** *** Future: which callables give up their first argument *)

(** X12. What [Future] stores depends on the kind of callable, when no
    keyword is named [self] or [func_or_method].  For a bound method whose
    instance is true it keeps every positional argument, even none, and
    skips the first parameter name.  For a callable that is no method
    object, whose first parameter is called [self] or [cls] and that has no
    true [__self__], it takes the first positional argument as [self] and
    skips the first parameter name. *)
Theorem Future_new_by_kind {F} `{!PyCallable F} (f : F) (args : list value)
    (kwargs : gmap string value) (s : state) (names : list string) :
  kwargs !! "self"%string = None →
  kwargs !! "func_or_method"%string = None →
  (if PY2 then getargspec_args f else getfullargspec_args f) = Return names →
  (is_staticmethod f = false → ismethod f = true →
   ∀ v, dunder_self f = Some v → truthy v = true →
   Future_new f args kwargs s
   = (Return (mkFuture f args (kwargs_ref s kwargs) (drop 1 names) None),
      after_new s kwargs))
  ∧ (is_staticmethod f = false → ismethod f = false → is_classmethod f = false →
     ∀ first others a0 rest,
       (if PY2 then getargspec_args f else signature_parameters f)
       = Return (first :: others) →
       first = "self"%string ∨ first = "cls"%string →
       is_unbound f = true →
       args = a0 :: rest →
       Future_new f args kwargs s
       = (Return (mkFuture f rest (kwargs_ref s kwargs) (drop 1 names) (Some a0)),
          after_new s kwargs)).
Proof.
  intros Hself Hfunc Hnames.
  assert (Hkw : binds_twice kwargs = false)
    by (unfold binds_twice; by rewrite Hself, Hfunc).
  split.
  - intros Hst Hm v Hv Htrue. rewrite Future_new_eq, Hkw. cbv zeta. rewrite Hnames.
    unfold has_self_cls_arg, is_unbound. by rewrite Hst, Hm, Hv, Htrue.
  - intros Hst Hm Hcm first others a0 rest Hsig Hfirst Hunbound ->.
    rewrite Future_new_eq, Hkw. cbv zeta. rewrite Hnames.
    unfold has_self_cls_arg. rewrite Hst, Hm, Hcm, Hsig, Hunbound.
    by destruct Hfirst as [-> | ->].
Qed.

(** *** create_train_step: the calls and their answers *)

Lemma replay_app (a b : list step) (w w1 w' : world) :
  replay w a w1 → replay w1 b w' → replay w (a ++ b) w'.
Proof.
  revert w. induction a as [|[op args kw r|c args kw r] a IH]; intros w; simpl.
  - by intros ->.
  - intros (w2 & H1 & H2) Hb. exists w2. split; [done|]. by apply IH.
  - intros (w2 & H1 & H2) Hb. exists w2. split; [done|]. by apply IH.
Qed.

Lemma ran_nil (s : state) : ran s [] s.
Proof. unfold ran. simpl. by rewrite app_nil_r. Qed.

Lemma ran_app (s : state) (a : list step) (s1 : state) (b : list step) (s2 : state) :
  ran s a s1 → ran s1 b s2 → ran s (a ++ b) s2.
Proof.
  intros (Ht1 & Hd1 & Hm1 & Hr1) (Ht2 & Hd2 & Hm2 & Hr2).
  split; [|split; [congruence|split; [congruence|by eapply replay_app]]].
  by rewrite Ht2, Ht1, fmap_app, <- app_assoc.
Qed.

Lemma ran_cons (s : state) (st : step) (s1 : state) (b : list step) (s2 : state) :
  ran s [st] s1 → ran s1 b s2 → ran s (st :: b) s2.
Proof. apply (ran_app s [st]). Qed.

Lemma tf_ran (op : string) (args : list value) (kwargs : gmap string value)
    (s s' : state) (v : value) :
  tf op args kwargs s = (Return v, s') → ran s [HostStep op args kwargs v] s'.
Proof.
  intros [Hs Hh]%tf_Return. unfold ran. rewrite Hs. cbn [after_tf trace dicts memo host].
  split; [done|]. split; [done|]. split; [done|]. simpl. eauto.
Qed.

Lemma py_call_ran (f : value) (args : list value) (kwargs : gmap string value)
    (s s' : state) (v : value) :
  py_call f args kwargs s = (Return v, s') →
  ∃ c, py_callable f = Some c ∧ ran s [CallStep c args kwargs v] s'.
Proof.
  intros (c & Hc & Hs & Hb)%py_call_Return. exists c. split; [done|].
  unfold ran. rewrite Hs. cbn [after_call trace dicts memo host].
  split; [done|]. split; [done|]. split; [done|]. simpl. eauto.
Qed.

Lemma with_ctx_ran {A} (ctx : value) (body : value → M host_exn A)
    (s s' : state) (r : A) :
  with_ctx ctx body s = (Return r, s') →
  ∃ v s1 s2 u,
    ran s [HostStep "__enter__" [ctx] ∅ v] s1
    ∧ body v s1 = (Return r, s2)
    ∧ ran s2 [HostStep "__exit__" [ctx] ∅ u] s'.
Proof.
  unfold with_ctx. intros H. apply bind_Return in H as (v & s1 & Henter & H).
  apply tf_ran in Henter. exists v, s1.
  unfold finally in H. destruct (body v s1) as [r' s2].
  destruct ((tf "__exit__" [ctx] ∅ ;;; ret tt) s2) as [[u0|e] s3] eqn:Hexit; [|done].
  injection H as -> ->.
  apply bind_Return in Hexit as (u & s3' & Hexit & Hret).
  apply ret_Return in Hret as [_ <-]. apply tf_ran in Hexit.
  by exists s2, u.
Qed.

Lemma name_scope_ran {A} (name : string) (body : M host_exn A)
    (s s' : state) (r : A) :
  name_scope name body s = (Return r, s') →
  ∃ scope u s1 s2 u',
    ran s [HostStep "tf.name_scope" [PyStr name] ∅ scope;
           HostStep "__enter__" [scope] ∅ u] s1
    ∧ body s1 = (Return r, s2)
    ∧ ran s2 [HostStep "__exit__" [scope] ∅ u'] s'.
Proof.
  intros H. unfold name_scope in H.
  apply bind_Return in H as (scope & s0 & Hscope & H). apply tf_ran in Hscope.
  apply with_ctx_ran in H as (u & s1 & s2 & u' & Henter & Hbody & Hexit).
  exists scope, u, s1, s2, u'. split; [|done]. by eapply ran_cons.
Qed.

Lemma iterate_ran (v : value) (s s' : state) (xs : list value) :
  iterate v s = (Return xs, s') →
  ∃ steps, iterated v xs steps ∧ ran s steps s'.
Proof.
  destruct v as [ | | | str | a | k ys | ]; try done.
  - intros [<- <-]%ret_Return. exists []. split; [done|apply ran_nil].
  - unfold iterate. intros H. apply bind_Return in H as (r & s1 & Hr & H).
    apply tf_ran in Hr. destruct r as [ | | | | | k ys | ]; try done.
    apply ret_Return in H as [<- <-]. eexists. split; [by exists k|done].
  - intros [<- <-]%ret_Return. exists []. split; [done|apply ran_nil].
Qed.

Lemma vars_step_ran (vtt tape : value) (s s' : state) (r : value) :
  match vtt with
  | PyNone => tf "GradientTape.watched_variables" [tape] ∅
  | _ => if bool_decide (is_Some (py_callable vtt))
         then py_call vtt [] ∅
         else ret vtt
  end s = (Return r, s') →
  ∃ steps, vars_step vtt tape r steps ∧ ran s steps s'.
Proof.
  intros H. unfold vars_step, called_or_given.
  destruct vtt;
    [ apply tf_ran in H; eauto | ..];
    (case_bool_decide as Hc;
     [ apply py_call_ran in H as (c & Hc' & H); rewrite Hc'; eauto
     | apply ret_Return in H as [<- <-];
       destruct (py_callable _) eqn:Hpc; [exfalso; apply Hc; eauto|];
       exists []; split; [done|apply ran_nil] ]).
Qed.

Lemma called_or_given_ran (v : value) (s s' : state) (r : value) :
  (if is_callable v then from_callee (py_call v [] ∅) else ret v) s = (Return r, s') →
  ∃ steps, called_or_given v r steps ∧ ran s steps s'.
Proof.
  unfold is_callable, called_or_given. case_bool_decide as Hc; intros H.
  - apply from_callee_Return, py_call_ran in H as (c & Hc' & H). rewrite Hc'. eauto.
  - apply ret_Return in H as [<- <-].
    destruct (py_callable v) eqn:Hpc; [exfalso; apply Hc; eauto|].
    exists []. split; [done|apply ran_nil].
Qed.

Lemma map_tf_list_ran (op : string) (extra : list value) (xs : list value) :
  Forall (λ v, ∀ s r s',
            map_structure (fun t => tf op (t :: extra) ∅) v s = (Return r, s') →
            ∃ outs,
              length outs = length (flatten v)
              ∧ (∀ rest, pack v (outs ++ rest) = Some (r, rest))
              ∧ ran s (map_steps op extra (flatten v) outs) s') xs →
  ∀ s ys s',
    mapM (map_structure (fun t => tf op (t :: extra) ∅)) xs s = (Return ys, s') →
    ∃ outs,
      length outs = length (concat (flatten <$> xs))
      ∧ (∀ rest, pack_list xs (outs ++ rest) = Some (ys, rest))
      ∧ ran s (map_steps op extra (concat (flatten <$> xs)) outs) s'.
Proof.
  induction 1 as [|x xs Hx _ IH]; intros s ys s' H.
  - apply ret_Return in H as [<- <-]. exists []. split; [done|].
    split; [done|apply ran_nil].
  - simpl in H. apply bind_Return in H as (y & s1 & Hy & H).
    apply bind_Return in H as (ys' & s2 & Hys & H).
    apply ret_Return in H as [<- <-].
    destruct (Hx _ _ _ Hy) as (o1 & Hl1 & Hp1 & Hr1).
    destruct (IH _ _ _ Hys) as (o2 & Hl2 & Hp2 & Hr2).
    exists (o1 ++ o2). rewrite fmap_cons. cbn [concat]. split; [|split].
    + rewrite !length_app. congruence.
    + intros rest. cbn [pack_list]. by rewrite <- app_assoc, Hp1, Hp2.
    + unfold map_steps in *. rewrite zip_with_app by done. by eapply ran_app.
Qed.

Lemma map_tf_ran (op : string) (extra : list value) (v : value) :
  ∀ s r s',
    map_structure (fun t => tf op (t :: extra) ∅) v s = (Return r, s') →
    ∃ outs,
      length outs = length (flatten v)
      ∧ (∀ rest, pack v (outs ++ rest) = Some (r, rest))
      ∧ ran s (map_steps op extra (flatten v) outs) s'.
Proof.
  induction v as [ | | | | | k xs IH | ] using value_ind_nested; intros s r s' H;
    try (apply tf_ran in H; exists [r]; split; [done|split; [done|exact H]]).
  rewrite map_structure_Seq in H. apply bind_Return in H as (ys & s1 & Hys & H).
  apply ret_Return in H as [<- <-].
  destruct (map_tf_list_ran op extra xs IH _ _ _ Hys) as (outs & Hl & Hp & Hr).
  exists outs. rewrite flatten_Seq. split; [done|]. split; [|done].
  intros rest. by rewrite pack_Seq, Hp.
Qed.

(** X13. In graph mode a [create_train_step] that returns has made these
    calls, in this order, and nothing else: the loss and the variables to
    train, each if it is callable; [tf.control_dependencies] on the tensors
    of the loss, and under it [total_loss_fn] on the loss and
    [create_train_op] on the total loss it returned, the optimizer and the
    options as given; [tf.control_dependencies] on the train op that
    returned, and under it one [tf.identity] for each tensor of the loss.
    What it returns is the loss with each tensor replaced by the result of
    its [tf.identity]. *)
Theorem create_train_step_graph_run (loss optimizer : value) (a : train_args)
    (s s1 : state) (r : train_result) :
  executing_eagerly (host s) = false →
  create_train_step loss optimizer a s = (Return r, s1) →
  ∃ c_total loss0 lsteps vtt0 vsteps ctx1 u1 total train_op u2 ctx2 u3 outs out u4,
    py_callable (effective_total_loss_fn a) = Some c_total
    ∧ called_or_given loss loss0 lsteps
    ∧ called_or_given (variables_to_train a) vtt0 vsteps
    ∧ length outs = length (flatten loss0)
    ∧ pack loss0 outs = Some (out, [])
    ∧ r = GraphLoss out
    ∧ ran s
          (lsteps ++ vsteps
           ++ [HostStep "tf.control_dependencies" [Seq KList (flatten loss0)] ∅ ctx1;
               HostStep "__enter__" [ctx1] ∅ u1;
               CallStep c_total [loss0] ∅ total;
               HostStep "tf.contrib.training.create_train_op" [total; optimizer]
                        (create_train_op_kwargs a vtt0) train_op;
               HostStep "__exit__" [ctx1] ∅ u2;
               HostStep "tf.control_dependencies" [Seq KList [train_op]] ∅ ctx2;
               HostStep "__enter__" [ctx2] ∅ u3]
           ++ map_steps "tf.identity" [PyStr "loss"] (flatten loss0) outs
           ++ [HostStep "__exit__" [ctx2] ∅ u4])
          s1.
Proof.
  intros Hmode H. rewrite create_train_step_unfold in H.
  destruct (is_callable (effective_total_loss_fn a)); [|done]. cbn [negb] in H.
  apply bind_Return in H as (w0 & s0 & Hw & H).
  apply ret_Return in Hw as [<- <-]. rewrite Hmode in H. cbn [negb] in H.
  apply bind_Return in H as (loss0 & s2 & Hl & H).
  apply called_or_given_ran in Hl as (lsteps & Hlc & Hl).
  apply bind_Return in H as (vtt0 & s3 & Hv & H).
  apply called_or_given_ran in Hv as (vsteps & Hvc & Hv).
  apply bind_Return in H as (ctx1 & s4 & Hc1 & H).
  apply from_callee_Return, tf_ran in Hc1.
  apply bind_Return in H as (train_op & s7 & Hw1 & H).
  apply from_callee_Return, with_ctx_ran in Hw1
    as (u1 & s5 & s6 & u2 & Hen1 & Hbody1 & Hex1).
  apply bind_Return in Hbody1 as (total & s5' & Htot & Hop).
  apply py_call_ran in Htot as (c_total & Hct & Htot).
  apply tf_ran in Hop.
  apply bind_Return in H as (ctx2 & s8 & Hc2 & H).
  apply from_callee_Return, tf_ran in Hc2.
  apply bind_Return in H as (out & s11 & Hw2 & H).
  apply from_callee_Return, with_ctx_ran in Hw2
    as (u3 & s9 & s10 & u4 & Hen2 & Hbody2 & Hex2).
  apply map_tf_ran in Hbody2 as (outs & Hlen & Hp & Hids).
  apply ret_Return in H as [<- <-].
  exists c_total, loss0, lsteps, vtt0, vsteps, ctx1, u1, total, train_op, u2, ctx2, u3,
         outs, out, u4.
  split; [done|]. split; [done|]. split; [done|]. split; [done|].
  split; [specialize (Hp []); by rewrite app_nil_r in Hp|]. split; [done|].
  eapply ran_app; [exact Hl|]. eapply ran_app; [exact Hv|]. cbn [app].
  eapply ran_cons; [exact Hc1|]. eapply ran_cons; [exact Hen1|].
  eapply ran_cons; [exact Htot|]. eapply ran_cons; [exact Hop|].
  eapply ran_cons; [exact Hex1|]. eapply ran_cons; [exact Hc2|].
  eapply ran_cons; [exact Hen2|]. eapply ran_app; [exact Hids|]. exact Hex2.
Qed.

Lemma train_step_default_ran (cl : train_closure) (args : list value)
    (loss tfn vtt : value) (s s' : state) (v : value) :
  truthy (cl_transform_grads_fn cl) = false →
  truthy (cl_summarize_gradients cl) = false →
  train_step cl args (train_kwargs loss tfn vtt) s = (Return v, s') →
  ∃ c_loss c_total ctx tape loss_value total u vars vsteps grads_v grads isteps
    csteps u',
    py_callable loss = Some c_loss
    ∧ py_callable tfn = Some c_total
    ∧ vars_step vtt tape vars vsteps
    ∧ iterated grads_v grads isteps
    ∧ check_step (cl_check_numerics cl) loss_value v csteps
    ∧ ran s
          ([HostStep "tf.GradientTape" [] ∅ ctx;
            HostStep "__enter__" [ctx] ∅ tape;
            CallStep c_loss args ∅ loss_value;
            CallStep c_total [loss_value] ∅ total;
            HostStep "__exit__" [ctx] ∅ u]
           ++ vsteps
           ++ [HostStep "GradientTape.gradient"
                        [tape; total; Seq KList (flatten vars)] ∅ grads_v]
           ++ isteps ++ csteps
           ++ [HostStep "Optimizer.apply_gradients"
                        [cl_optimizer cl; Seq KList (pair_up grads (flatten vars))]
                        {[ "global_step"%string := cl_global_step cl ]} u'])
          s'.
Proof.
  intros Htr Hsu H. unfold train_step in H.
  rewrite (pop_key_run "_loss" _ loss) in H by done.
  apply bind_Return in H as (p & s1 & Hp & H). apply ret_Return in Hp as [<- <-].
  rewrite (pop_key_run "_total_loss_fn" _ tfn) in H by done.
  apply bind_Return in H as (p & s1 & Hp & H). apply ret_Return in Hp as [<- <-].
  rewrite (pop_key_run "_variables_to_train" _ vtt) in H by done.
  apply bind_Return in H as (p & s1 & Hp & H). apply ret_Return in Hp as [<- <-].
  apply bind_Return in H as (ctx & s1 & Hctx & H). apply tf_ran in Hctx.
  apply bind_Return in H as ([[tape loss_value] total] & s5 & Hwith & H).
  apply with_ctx_ran in Hwith as (tape' & s2 & s4 & u & Henter & Hbody & Hexit).
  apply bind_Return in Hbody as (lv & s3 & Hloss & Hbody).
  apply py_call_ran in Hloss as (c_loss & Hcl & Hloss).
  apply bind_Return in Hbody as (tl & s4' & Htot & Hbody).
  apply py_call_ran in Htot as (c_total & Hct & Htot).
  apply ret_Return in Hbody as [[= -> -> ->] ->].
  apply bind_Return in H as (vars_v & s6 & Hvars & H).
  apply vars_step_ran in Hvars as (vsteps & Hvs & Hvars).
  apply bind_Return in H as (grads_v & s7 & Hgrad & H). apply tf_ran in Hgrad.
  rewrite Htr, orb_true_r in H.
  apply bind_Return in H as (p & s8 & Hp & H).
  apply bind_Return in Hp as (grads & s8' & Hit & Hp).
  apply iterate_ran in Hit as (isteps & Hi & Hit).
  apply ret_Return in Hp as [<- <-].
  apply bind_Return in H as (p & s9 & Hp & H). apply ret_Return in Hp as [<- <-].
  rewrite Hsu in H.
  apply bind_Return in H as (gv & s9 & Hp & H). apply ret_Return in Hp as [<- <-].
  apply bind_Return in H as (lv' & s10 & Hcheck & H).
  apply bind_Return in H as (u' & s11 & Hap & H). apply tf_ran in Hap.
  apply ret_Return in H as [<- <-].
  assert (Hc : ∃ csteps, check_step (cl_check_numerics cl) loss_value lv' csteps
                         ∧ ran s8' csteps s10).
  { unfold check_step. destruct (truthy (cl_check_numerics cl)).
    - apply name_scope_ran in Hcheck as (scope & u0 & sa & sb & u1 & Hsa & Hcheck & Hsb).
      destruct (flatten loss_value) as [|first rest] eqn:Hfl; [done|].
      apply bind_Return in Hcheck as (checked & sc & Hck & Hcheck).
      apply tf_ran in Hck.
      destruct (pack loss_value (checked :: rest)) as [[packed [|]]|] eqn:Hpack;
        try done.
      apply ret_Return in Hcheck as [<- <-].
      eexists. split.
      + exists scope, u0, first, rest, checked, u1.
        split; [done|]. split; [done|]. split; [|reflexivity].
        intros ->. rewrite <- Hfl in Hpack.
        pose proof (pack_flatten loss_value []) as Hpf. rewrite app_nil_r in Hpf.
        congruence.
      + eapply (ran_app _ [_; _]); [exact Hsa|].
        eapply ran_cons; [exact Hck|exact Hsb].
    - apply ret_Return in Hcheck as [<- <-]. exists []. split; [done|apply ran_nil]. }
  destruct Hc as (csteps & Hc & Hcran).
  exists c_loss, c_total, ctx, tape, loss_value, total, u, vars_v, vsteps, grads_v,
         grads, isteps, csteps, u'.
  split; [done|]. split; [done|]. split; [done|]. split; [done|]. split; [done|].
  cbn [app].
  eapply ran_cons; [exact Hctx|]. eapply ran_cons; [exact Henter|].
  eapply ran_cons; [exact Hloss|]. eapply ran_cons; [exact Htot|].
  eapply ran_cons; [exact Hexit|]. eapply ran_app; [exact Hvars|]. cbn [app].
  eapply ran_cons; [exact Hgrad|]. eapply ran_app; [exact Hit|].
  eapply ran_app; [exact Hcran|]. exact Hap.
Qed.

(** X14. In eager mode, with no [transform_grads_fn] and
    [summarize_gradients] unset, a call of the [Future] that
    [create_train_step] returned, if it returns, has made these calls, in
    this order, and nothing else: under a [tf.GradientTape], the loss on
    the arguments of the call and [total_loss_fn] on the value of the loss;
    the variables to train, from the tape when none were given; the tape's
    [gradient] of the total loss with respect to those variables; the check
    of the loss when asked for; and [optimizer.apply_gradients] on the
    gradients that returned, paired with the variables.  It returns the
    value of the loss, its first tensor passed through
    [tf.check_numerics] when the check is asked for. *)
Theorem create_train_step_eager_step (loss optimizer : value) (a : train_args)
    (s s1 : state) (fut : Future train_closure)
    (args : list value) (s2 s3 : state) (v : value) :
  executing_eagerly (host s) = true →
  create_train_step loss optimizer a s = (Return (EagerStep fut), s1) →
  truthy (transform_grads_fn a) = false →
  truthy (summarize_gradients a) = false →
  dicts s2 !! _kwargs fut
  = Some (train_kwargs loss (effective_total_loss_fn a) (variables_to_train a)) →
  Future_call fut args ∅ s2 = (Return v, s3) →
  dicts s1 !! _kwargs fut
  = Some (train_kwargs loss (effective_total_loss_fn a) (variables_to_train a))
  ∧ ∃ c_loss c_total ctx tape loss_value total u vars vsteps grads_v grads isteps
      csteps u',
      py_callable loss = Some c_loss
      ∧ py_callable (effective_total_loss_fn a) = Some c_total
      ∧ vars_step (variables_to_train a) tape vars vsteps
      ∧ iterated grads_v grads isteps
      ∧ check_step (check_numerics a) loss_value v csteps
      ∧ ran (with_call_dict s2 (train_kwargs loss (effective_total_loss_fn a)
                                             (variables_to_train a)))
            ([HostStep "tf.GradientTape" [] ∅ ctx;
              HostStep "__enter__" [ctx] ∅ tape;
              CallStep c_loss args ∅ loss_value;
              CallStep c_total [loss_value] ∅ total;
              HostStep "__exit__" [ctx] ∅ u]
             ++ vsteps
             ++ [HostStep "GradientTape.gradient"
                          [tape; total; Seq KList (flatten vars)] ∅ grads_v]
             ++ isteps ++ csteps
             ++ [HostStep "Optimizer.apply_gradients"
                          [optimizer; Seq KList (pair_up grads (flatten vars))]
                          {[ "global_step"%string
                             := cl_global_step (_func_or_method fut) ]} u'])
            s3.
Proof.
  intros Hmode H Htr Hsu Hlive Hcall.
  destruct (create_train_step_eager_Return _ _ _ _ _ _ Hmode H)
    as (fut' & gs & [= <-] & _ & Hcl & _ & Hargs & Hself & Hnames & Hkw).
  split; [done|].
  rewrite Future_call_eq in Hcall. cbv zeta in Hcall.
  apply from_callee_Return in Hcall.
  change (apply (_func_or_method fut)) with (train_step (_func_or_method fut)) in Hcall.
  assert (Hca : call_args_of fut args = args).
  { unfold call_args_of, self_prefix. rewrite Hself, Hargs. by destruct args. }
  assert (Hck : call_kwargs_of fut (dicts s2 !!! _kwargs fut) args ∅
                = train_kwargs loss (effective_total_loss_fn a) (variables_to_train a)).
  { unfold call_kwargs_of. rewrite Hnames, take_nil. simpl.
    rewrite (lookup_total_correct _ _ _ Hlive). by rewrite (left_id_L ∅ (∪)). }
  rewrite Hca, Hck in Hcall.
  apply train_step_default_ran in Hcall; [|by rewrite Hcl|by rewrite Hcl].
  by rewrite Hcl in *.
Qed.

End More.
(** ** The theorems at the small framework *)

Section Runs.
Import Toy.
#[local] Existing Instance toy_types.
#[local] Existing Instance toy_py.
#[local] Existing Instance toy_np.

(** C4 fails on the code.  [Future(method, obj, x)] with [obj] an object
    that is false stores [obj] as [self]; the call without arguments then
    takes the branch for no [self] and calls [method(x)], not
    [method(obj, x)]. *)
Lemma Future_call_drops_false_self :
  truthy (obj 0) = false
  ∧ ∃ fut s,
      Future_new method [obj 0; obj 5] ∅ eager0 = (Return fut, s)
      ∧ _self fut = Some (obj 0)
      ∧ _args fut = [obj 5]
      ∧ trace (Future_call fut [] ∅ s).2 = [ECall 100 [obj 5] ∅].
Proof.
  split; [reflexivity|].
  eexists _, _. split; [vm_compute; reflexivity|]. by vm_compute.
Qed.


(** C5 as stated fails: [future_in_eager_mode(None)] raises a [TypeError]
    of the module's own. *)
Lemma future_in_eager_mode_raises_own :
  future_in_eager_mode PyNone = Raise (Own TypeError not_callable_msg).
Proof. reflexivity. Qed.

(** C1 as stated fails: after a graph-mode call on a tensor of dtype [51]
    and shape [(2,)] the memo holds the dtype, not the shape. *)
Lemma memo_entry_is_not_shapes :
  executing_eagerly (host graph0) = false
  ∧ input_dtypes_of [obj 1] = Return [51]
  ∧ memo_entry (wrapper np_first PyNone [obj 1] ∅ graph0).2 110 [51]
    = Some (Seq KList [obj 51])
  ∧ output_shapes_of np_first [obj 1] ∅ (host graph0) = Some (Seq KList [PyInt 2])
  ∧ memo_entry (wrapper np_first PyNone [obj 1] ∅ graph0).2 110 [51]
    ≠ output_shapes_of np_first [obj 1] ∅ (host graph0).
Proof. repeat split; by vm_compute. Qed.

(** C6 as stated fails: two graph-mode calls with the same tuple of input
    dtypes on a function that raises start the inference twice. *)
Lemma failed_inference_runs_again :
  executing_eagerly (host graph0) = false
  ∧ input_dtypes_of [obj 1] = Return [51]
  ∧ misses 111 [51]
      (trace (run_calls np_inv PyNone [([obj 1], ∅); ([obj 1], ∅)] graph0)) = 2.
Proof. repeat split; by vm_compute. Qed.

(** C7 as stated fails: a tensor passed by keyword reaches the function
    as it is, not as its numpy value. *)
Lemma keyword_tensor_is_not_converted :
  executing_eagerly (host eager0) = true
  ∧ tensor_numpy (obj 1) = Return (obj 1001)
  ∧ trace (wrapper np_first PyNone [] {["x"%string := obj 1]} eager0).2
    = [ECall 110 [] {["x"%string := obj 1]}].
Proof. repeat split; by vm_compute. Qed.

(** *** Runs of the theorems *)


Lemma Future_call_positional_all_or_nothing_run :
  length (_args fut_ab) = 3
  ∧ length two_args = 2
  ∧ 0 < 2 < 3
  ∧ trace (Future_call fut_ab two_args ∅ live0).2 = [ECall 101 two_args ∅].
Proof.
  split; [reflexivity|]. split; [reflexivity|]. split; [lia|].
  rewrite (Future_call_positional_all_or_nothing fut_ab two_args ∅ live0 3 2);
    [by vm_compute|reflexivity|reflexivity|lia].
Defined.

Lemma Future_call_does_not_mutate_run :
  0 ∈ dom (dicts live0)
  ∧ Future_init f_ab [obj 1] 0 live0
    = (Return fut_init, (Future_init f_ab [obj 1] 0 live0).2)
  ∧ _kwargs fut_init ∈ dom (dicts (Future_init f_ab [obj 1] 0 live0).2)
  ∧ dicts (Future_call fut_init [obj 7] ∅ (Future_init f_ab [obj 1] 0 live0).2).2
      !! _kwargs fut_init
    = dicts (Future_init f_ab [obj 1] 0 live0).2 !! _kwargs fut_init.
Proof.
  assert (H0 : 0 ∈ dom (dicts live0)) by (apply elem_of_dom; eexists; vm_compute; reflexivity).
  assert (H1 : Future_init f_ab [obj 1] 0 live0
               = (Return fut_init, (Future_init f_ab [obj 1] 0 live0).2))
    by (by vm_compute).
  assert (H2 : _kwargs fut_init ∈ dom (dicts (Future_init f_ab [obj 1] 0 live0).2))
    by (apply elem_of_dom; eexists; vm_compute; reflexivity).
  split; [exact H0|]. split; [exact H1|]. split; [exact H2|].
  exact (proj1 (proj2 (proj2
           (Future_call_does_not_mutate f_ab [obj 1] 0 live0 _ fut_init
              [obj 7] ∅ _ H0 H1 H2)))).
Defined.


Lemma wrapper_eager_converts_positionals_run :
  executing_eagerly (host eager0) = true
  ∧ (wrapper np_first PyNone [obj 1] ∅ eager0).1 = Return (obj 1).
Proof.
  split; [reflexivity|].
  rewrite (wrapper_eager_converts_positionals np_first PyNone [obj 1] ∅ eager0);
    reflexivity.
Defined.

Lemma memo_entry_records_output_dtypes_run :
  executing_eagerly (host graph0) = false
  ∧ input_dtypes_of [obj 1] = Return [51]
  ∧ memo_entry graph0 (fn_id np_first) [51] = None
  ∧ output_dtypes_of np_first PyNone [obj 1] ∅ [51] (host graph0)
    = Some (Seq KList [obj 51])
  ∧ memo_entry (wrapper np_first PyNone [obj 1] ∅ graph0).2 (fn_id np_first) [51]
    = Some (Seq KList [obj 51]).
Proof.
  assert (H1 : executing_eagerly (host graph0) = false) by reflexivity.
  assert (H2 : input_dtypes_of [obj 1] = Return [51]) by reflexivity.
  assert (H3 : memo_entry graph0 (fn_id np_first) [51] = None) by reflexivity.
  assert (H4 : output_dtypes_of np_first PyNone [obj 1] ∅ [51] (host graph0)
               = Some (Seq KList [obj 51])) by (by vm_compute).
  split; [exact H1|]. split; [exact H2|]. split; [exact H3|]. split; [exact H4|].
  exact (proj1 (memo_entry_records_output_dtypes np_first PyNone [obj 1] ∅ [51]
                  graph0 (Seq KList [obj 51]) H1 H2 H3 H4)).
Defined.

Lemma memo_only_grows_and_is_reused_run :
  (memo_entry (wrapper np_first PyNone [obj 1] ∅ graph0).2 (fn_id np_first) [51]
   = Some (Seq KList [obj 51])
   ∧ memo_entry (run_calls np_first PyNone [([obj 3], ∅); ([obj 2], ∅)]
                   (wrapper np_first PyNone [obj 1] ∅ graph0).2) (fn_id np_first) [51]
     = Some (Seq KList [obj 51]))
  ∧ (executing_eagerly (host graph0) = false
     ∧ input_dtypes_of [obj 1] = Return [51]
     ∧ memo_entry graph0 (fn_id np_inv) [51] = None
     ∧ inference np_inv PyNone [obj 1] ∅ [51] (at_miss graph0 (fn_id np_inv) [51])
       = (Raise "LinAlgError"%string,
          (inference np_inv PyNone [obj 1] ∅ [51] (at_miss graph0 (fn_id np_inv) [51])).2)
     ∧ (wrapper np_inv PyNone [obj 1] ∅ graph0).1 = Raise (Host "LinAlgError"%string)
     ∧ memo (wrapper np_inv PyNone [obj 1] ∅ graph0).2 = memo graph0).
Proof.
  assert (H : memo_entry (wrapper np_first PyNone [obj 1] ∅ graph0).2
                (fn_id np_first) [51] = Some (Seq KList [obj 51])) by (by vm_compute).
  assert (H1 : executing_eagerly (host graph0) = false) by reflexivity.
  assert (H2 : input_dtypes_of [obj 1] = Return [51]) by reflexivity.
  assert (H3 : memo_entry graph0 (fn_id np_inv) [51] = None) by reflexivity.
  assert (H4 : inference np_inv PyNone [obj 1] ∅ [51] (at_miss graph0 (fn_id np_inv) [51])
               = (Raise "LinAlgError"%string,
                  (inference np_inv PyNone [obj 1] ∅ [51]
                     (at_miss graph0 (fn_id np_inv) [51])).2))
    by (vm_compute; reflexivity).
  split.
  - split; [exact H|].
    exact (proj1 (memo_only_grows_and_is_reused np_first PyNone
                    [([obj 3], ∅); ([obj 2], ∅)]
                    (wrapper np_first PyNone [obj 1] ∅ graph0).2) [51] _ H).
  - split; [exact H1|]. split; [exact H2|]. split; [exact H3|]. split; [exact H4|].
    pose proof (proj2 (proj2 (proj2 (proj2
                  (memo_only_grows_and_is_reused np_inv PyNone [] graph0))))
                  [obj 1] ∅ [51] _ _ H1 H2 H3 H4) as HH.
    cbn [run_calls] in HH. destruct HH as (Hw & Hm & _).
    split; [by rewrite Hw|]. by rewrite Hw.
Defined.


Lemma own_exceptions_are_the_guards_run :
  future_in_eager_mode PyNone = Raise (Own TypeError not_callable_msg)
  ∧ py_callable PyNone = None.
Proof.
  split; [reflexivity|].
  exact (proj2 (proj1 own_exceptions_are_the_guards PyNone _ eq_refl)).
Defined.

(** *** Runs of the further theorems *)

Lemma Future_new_then_call_run :
  Future_new f_ab [obj 1] stored0 eager0
  = (Return fut_init, (Future_new f_ab [obj 1] stored0 eager0).2)
  ∧ (∀ v, _self fut_init = Some v → truthy v = true)
  ∧ dicts (Future_new f_ab [obj 1] stored0 eager0).2 !! _kwargs fut_init = Some stored0
  ∧ trace (Future_call fut_init [] ∅ (Future_new f_ab [obj 1] stored0 eager0).2).2
    = [ECall 101 [obj 1] stored0].
Proof.
  assert (H1 : Future_new f_ab [obj 1] stored0 eager0
               = (Return fut_init, (Future_new f_ab [obj 1] stored0 eager0).2))
    by (vm_compute; reflexivity).
  assert (H2 : ∀ v, _self fut_init = Some v → truthy v = true) by discriminate.
  assert (H3 : dicts (Future_new f_ab [obj 1] stored0 eager0).2 !! _kwargs fut_init
               = Some stored0) by (vm_compute; reflexivity).
  split; [exact H1|]. split; [exact H2|]. split; [exact H3|].
  rewrite (proj2 (Future_new_then_call f_ab [obj 1] stored0 eager0 _ fut_init _ H1 H2 H3)).
  reflexivity.
Defined.

Lemma replace_colon_spec_run :
  (":"%char ∉ chars "dense/kernel")
  ∧ replace_colon "dense/kernel" = "dense/kernel"%string.
Proof.
  assert (H : ":"%char ∉ chars "dense/kernel").
  { simpl. intros H. repeat (apply elem_of_cons in H as [H|H]; [discriminate|]).
    by apply elem_of_nil in H. }
  split; [exact H|].
  exact (proj2 (proj2 (proj2 (replace_colon_spec "dense/kernel"))) H).
Defined.

Lemma train_step_loss_raises_run :
  host_call "tf.GradientTape" [] ∅ (host eager0) = (Return (obj 20), (true, 1))
  ∧ host_call "__enter__" [obj 20] ∅ (true, 1) = (Return (obj 20), (true, 2))
  ∧ py_callable (obj 111) = Some np_inv
  ∧ fn_body np_inv [] ∅ (true, 2) = (Raise "LinAlgError"%string, (true, 3))
  ∧ train_step summarizing [] (train_kwargs (obj 111) Lambda_identity PyNone) eager0
    = (Raise "LinAlgError"%string,
       after_failed_loss eager0 (obj 20) np_inv [] (true, 4)).
Proof.
  assert (H1 : host_call "tf.GradientTape" [] ∅ (host eager0)
               = (Return (obj 20), (true, 1))) by reflexivity.
  assert (H2 : host_call "__enter__" [obj 20] ∅ (true, 1)
               = (Return (obj 20), (true, 2))) by reflexivity.
  assert (H3 : py_callable (obj 111) = Some np_inv) by reflexivity.
  assert (H4 : fn_body np_inv [] ∅ (true, 2) = (Raise "LinAlgError"%string, (true, 3)))
    by reflexivity.
  split; [exact H1|]. split; [exact H2|]. split; [exact H3|]. split; [exact H4|].
  rewrite (train_step_loss_raises summarizing [] (obj 111) Lambda_identity PyNone eager0
             (obj 20) (obj 20) np_inv _ _ _ _ H1 H2 H3 H4).
  reflexivity.
Defined.

Lemma create_train_step_eager_defers_run :
  executing_eagerly (host eager0) = true
  ∧ create_train_step (obj 120) (obj 8) (default_train_args PyNone) eager0
    = (Return (EagerStep step0), built0)
  ∧ trace built0
    = [EHost "tf.train.get_or_create_global_step" [] ∅;
       EHost "tf.logging.warning"
             [PyStr "loss should be an instance of eager_utils.Future"] ∅].
Proof.
  assert (H1 : executing_eagerly (host eager0) = true) by reflexivity.
  assert (H2 : create_train_step (obj 120) (obj 8) (default_train_args PyNone) eager0
               = (Return (EagerStep step0), built0)) by (vm_compute; reflexivity).
  split; [exact H1|]. split; [exact H2|].
  rewrite (proj1 (create_train_step_eager_defers _ _ _ _ _ _ H1 H2)). reflexivity.
Defined.

Lemma memo_is_per_function_run :
  (7 ≠ fn_id np_first
   ∧ memo (wrapper np_first PyNone [obj 1] ∅ graph0).2 !! 7 = memo graph0 !! 7)
  ∧ decorated bound_m PyNone graph0 = (Raise (Host (interp_error "AttributeError")), graph0)
  ∧ decorated builtin_f PyNone graph0
    = (Raise (Host (interp_error "AttributeError")), graph0).
Proof.
  assert (H : 7 ≠ fn_id np_first) by discriminate.
  split; [split; [exact H|]|split].
  - exact (proj2 (memo_is_per_function np_first PyNone graph0) [obj 1] ∅ 7 H).
  - exact (proj1 (memo_is_per_function bound_m PyNone graph0)).
  - exact (proj1 (memo_is_per_function builtin_f PyNone graph0)).
Defined.

Lemma wrapper_with_get_output_dtypes_run :
  executing_eagerly (host graph0) = false
  ∧ input_dtypes_of [obj 1] = Return [51]
  ∧ memo_entry graph0 (fn_id np_first) [51] = None
  ∧ obj 101 ≠ PyNone
  ∧ py_callable (obj 101) = Some f_ab
  ∧ trace (wrapper np_first (obj 101) [obj 1] ∅ graph0).2
    = [EMiss 110 [51]; ECall 101 [obj 51] ∅;
       EHost "tf.py_function" [tuple [obj 1]; tuple [obj 51]] ∅].
Proof.
  assert (H1 : executing_eagerly (host graph0) = false) by reflexivity.
  assert (H2 : input_dtypes_of [obj 1] = Return [51]) by reflexivity.
  assert (H3 : memo_entry graph0 (fn_id np_first) [51] = None) by reflexivity.
  assert (H4 : obj 101 ≠ PyNone) by discriminate.
  assert (H5 : py_callable (obj 101) = Some f_ab) by reflexivity.
  split; [exact H1|]. split; [exact H2|]. split; [exact H3|]. split; [exact H4|].
  split; [exact H5|].
  rewrite (wrapper_with_get_output_dtypes np_first f_ab (obj 101) [obj 1] ∅ [51] graph0
             H1 H2 H3 H4 H5).
  reflexivity.
Defined.

Lemma wrapper_rejects_bad_argument_run :
  PyNone ∈ flatten (tuple [obj 1; PyNone])
  ∧ get_dtype PyNone = Raise "AttributeError"%string
  ∧ ∃ e', wrapper np_first PyNone [obj 1; PyNone] ∅ graph0 = (Raise (Host e'), graph0).
Proof.
  assert (H1 : PyNone ∈ flatten (tuple [obj 1; PyNone])).
  { simpl. apply elem_of_cons. right. apply elem_of_cons. by left. }
  assert (H2 : get_dtype PyNone = Raise "AttributeError"%string) by reflexivity.
  split; [exact H1|]. split; [exact H2|].
  apply (wrapper_rejects_bad_argument np_first PyNone [obj 1; PyNone] ∅ graph0 PyNone H1).
  by exists "AttributeError"%string.
Defined.

Lemma Future_new_by_kind_run :
  (∅ : gmap string value) !! "self"%string = None
  ∧ (∅ : gmap string value) !! "func_or_method"%string = None
  ∧ (if PY2 then getargspec_args bound_m else getfullargspec_args bound_m)
    = Return ["self"; "x"]%string
  ∧ is_staticmethod bound_m = false
  ∧ ismethod bound_m = true
  ∧ dunder_self bound_m = Some (obj 5)
  ∧ truthy (obj 5) = true
  ∧ (Future_new bound_m [] ∅ eager0).1
    = Return (mkFuture bound_m [] (kwargs_ref eager0 ∅) ["x"%string] None).
Proof.
  assert (H1 : (if PY2 then getargspec_args bound_m else getfullargspec_args bound_m)
               = Return ["self"; "x"]%string) by reflexivity.
  split; [reflexivity|]. split; [reflexivity|].
  split; [exact H1|]. split; [reflexivity|]. split; [reflexivity|].
  split; [reflexivity|]. split; [reflexivity|].
  pose proof (Future_new_by_kind bound_m [] ∅ eager0 ["self"; "x"]%string) as HH.
  specialize (HH eq_refl eq_refl H1). destruct HH as (HH & _).
  rewrite (HH eq_refl eq_refl (obj 5) eq_refl eq_refl). reflexivity.
Defined.

Lemma create_train_step_graph_run_run :
  executing_eagerly (host graph0) = false
  ∧ create_train_step (tuple two_args) (obj 8) (default_train_args PyNone) graph0
    = (Return (GraphLoss (tuple two_args)),
       (create_train_step (tuple two_args) (obj 8) (default_train_args PyNone) graph0).2)
  ∧ ∃ outs, length outs = 2 ∧ pack (tuple two_args) outs = Some (tuple two_args, []).
Proof.
  assert (H1 : executing_eagerly (host graph0) = false) by reflexivity.
  assert (H2 : create_train_step (tuple two_args) (obj 8) (default_train_args PyNone) graph0
               = (Return (GraphLoss (tuple two_args)),
                  (create_train_step (tuple two_args) (obj 8)
                     (default_train_args PyNone) graph0).2))
    by (vm_compute; reflexivity).
  split; [exact H1|]. split; [exact H2|].
  destruct (create_train_step_graph_run _ _ _ _ _ _ H1 H2)
    as (c_total & loss0 & lsteps & vtt0 & vsteps & ctx1 & u1 & total & train_op & u2
        & ctx2 & u3 & outs & out & u4 & _ & Hl & _ & Hlen & Hpack & Hr & _).
  destruct Hl as [_ ->]. injection Hr as <-.
  exists outs. split; [exact Hlen|exact Hpack].
Defined.

Lemma create_train_step_eager_step_run :
  executing_eagerly (host eager0) = true
  ∧ create_train_step (obj 120) (obj 8) (default_train_args PyNone) eager0
    = (Return (EagerStep step0), built0)
  ∧ truthy (transform_grads_fn (default_train_args PyNone)) = false
  ∧ truthy (summarize_gradients (default_train_args PyNone)) = false
  ∧ Future_call step0 [obj 3] ∅ built0
    = (Return (tuple [obj 3]), (Future_call step0 [obj 3] ∅ built0).2)
  ∧ ∃ c_loss, py_callable (obj 120) = Some c_loss.
Proof.
  assert (H1 : executing_eagerly (host eager0) = true) by reflexivity.
  assert (H2 : create_train_step (obj 120) (obj 8) (default_train_args PyNone) eager0
               = (Return (EagerStep step0), built0)) by (vm_compute; reflexivity).
  assert (H3 : truthy (transform_grads_fn (default_train_args PyNone)) = false)
    by reflexivity.
  assert (H4 : truthy (summarize_gradients (default_train_args PyNone)) = false)
    by reflexivity.
  assert (H5 : dicts built0 !! _kwargs step0
               = Some (train_kwargs (obj 120)
                         (effective_total_loss_fn (default_train_args PyNone))
                         (variables_to_train (default_train_args PyNone))))
    by (vm_compute; reflexivity).
  assert (H6 : Future_call step0 [obj 3] ∅ built0
               = (Return (tuple [obj 3]), (Future_call step0 [obj 3] ∅ built0).2))
    by (vm_compute; reflexivity).
  split; [exact H1|]. split; [exact H2|]. split; [exact H3|]. split; [exact H4|].
  split; [exact H6|].
  destruct (create_train_step_eager_step _ _ _ _ _ _ [obj 3] built0 _ (tuple [obj 3])
              H1 H2 H3 H4 H5 H6)
    as (_ & c_loss & c_total & ctx & tape & lv & total & u & vars & vsteps & grads_v
        & grads & isteps & csteps & u' & Hl & _).
  by exists c_loss.
Defined.

End Runs.

(** ** The summaries at a framework whose variables have names *)

Section NamedRuns.
Import Toy.
#[local] Existing Instance toy_types.
#[local] Existing Instance toy_py_named.
#[local] Existing Instance toy_np.

Lemma add_gradients_summaries_counts_run :
  add_gradients_summaries two_pairs eager0
  = (Return tt, (add_gradients_summaries two_pairs eager0).2)
  ∧ ∃ t, trace (add_gradients_summaries two_pairs eager0).2 = trace eager0 ++ t
         ∧ count_op "tf.contrib.summary.histogram" t = 1
         ∧ count_op "tf.logging.info" t = 1.
Proof.
  assert (H : add_gradients_summaries two_pairs eager0
              = (Return tt, (add_gradients_summaries two_pairs eager0).2))
    by (vm_compute; reflexivity).
  split; [exact H|].
  destruct (add_gradients_summaries_counts _ _ _ _ H)
    as (items & pairs & t & [t0 [-> _]] & Hf & Ht & Hh & _ & Hi).
  apply Forall2_cons_inv_l in Hf as (p1 & pairs' & [t1 [H1 _]] & Hf & ->).
  apply Forall2_cons_inv_l in Hf as (p2 & pairs'' & [t2 [H2 _]] & Hf & ->).
  apply Forall2_nil_inv_l in Hf as ->.
  destruct p1 as [g1 v1], p2 as [g2 v2]. simpl in H1, H2.
  injection H1 as -> ->. injection H2 as -> ->.
  exists t. split; [exact Ht|]. split; [exact Hh|exact Hi].
Defined.

Lemma add_gradients_summaries_tags_run :
  add_gradients_summaries two_pairs eager0
  = (Return tt, (add_gradients_summaries two_pairs eager0).2)
  ∧ ∃ t, trace (add_gradients_summaries two_pairs eager0).2 = trace eager0 ++ t
         ∧ Forall tag_without_colon t.
Proof.
  assert (H : add_gradients_summaries two_pairs eager0
              = (Return tt, (add_gradients_summaries two_pairs eager0).2))
    by (vm_compute; reflexivity).
  split; [exact H|]. exact (add_gradients_summaries_tags _ _ _ _ H).
Defined.


(** C3 fails on the code under Python 3.  In eager mode
    [create_train_step(loss_fn, optimizer, summarize_gradients=True)]
    returns a [Future]; its call evaluates the loss under the tape, asks the
    tape for the gradient of the total loss with respect to the variable
    [40], which is [30], and writes the summaries of that pair.  That uses
    up the iterator of the pairs: [optimizer.apply_gradients] is then
    called on nothing, and the gradient is not applied. *)
Lemma train_step_applies_no_gradient :
  PY2 = false
  ∧ (∀ w, (host_call "GradientTape.gradient"
                     [obj 20; tuple [obj 3]; Seq KList [obj 40]] ∅ w).1
          = Return (Seq KList [obj 30]))
  ∧ ∃ fut s1 s2,
      create_train_step (obj 120) (obj 8) summarizing_args eager0
      = (Return (EagerStep fut), s1)
      ∧ Future_call fut [obj 3] ∅ s1 = (Return (tuple [obj 3]), s2)
      ∧ trace s2
        = trace s1
          ++ [EHost "tf.GradientTape" [] ∅;
              EHost "__enter__" [obj 20] ∅;
              ECall 120 [obj 3] ∅;
              ECall 0 [tuple [obj 3]] ∅;
              EHost "__exit__" [obj 20] ∅;
              EHost "GradientTape.watched_variables" [obj 20] ∅;
              EHost "GradientTape.gradient"
                    [obj 20; tuple [obj 3]; Seq KList [obj 40]] ∅;
              EHost "tf.name_scope" [PyStr "summarize_grads"] ∅;
              EHost "__enter__" [obj 21] ∅;
              EHost "isinstance" [obj 30; PyStr "tf.IndexedSlices"] ∅;
              EHost "getattr" [obj 40; PyStr "name"] ∅;
              EHost "tf.contrib.summary.histogram"
                    [PyStr "dense/kernel_0_gradient"; obj 30] ∅;
              EHost "tf.global_norm" [Seq KList [obj 30]] ∅;
              EHost "tf.contrib.summary.scalar"
                    [PyStr "dense/kernel_0_gradient_norm"; PyNone] ∅;
              EHost "__exit__" [obj 21] ∅;
              EHost "tf.name_scope" [PyStr "train_op"] ∅;
              EHost "__enter__" [obj 21] ∅;
              EHost "tf.check_numerics" [obj 3; PyStr "Loss is inf or nan"] ∅;
              EHost "__exit__" [obj 21] ∅;
              EHost "Optimizer.apply_gradients" [obj 8; Seq KList []]
                    {[ "global_step"%string := obj 9 ]}].
Proof.
  split; [reflexivity|]. split; [intros w; reflexivity|].
  eexists _, _, _. split; [vm_compute; reflexivity|].
  split; vm_compute; reflexivity.
Qed.

End NamedRuns.
